(** * PhpMyAdminClient: a shallow embedding of [source/main.py]

    The client logs into phpMyAdmin through its HTML front end and scrapes
    one table.  A Python string is modelled as a [string], its UTF-8
    encoding; the text of the nodes of a parsed page, which is what the
    program strips of whitespace, is modelled as the list of its Unicode
    code points ([ustring]).  Dictionaries filled once and read in order
    are association lists, the attribute dictionary of a parsed tag is a
    [gmap], and the methods of the class are computations in a
    state-and-exception monad over the object [self] and the list of HTTP
    requests put on the wire.

    The two third-party libraries the program drives, [requests] (the HTTP
    transport) and the [html.parser] front end of BeautifulSoup, are an
    interface ([Class Libs]): an exchange gives a response or raises a
    [RequestException], and the parser gives a tree or raises
    [ParserRejectedMarkup].  The tree queries of BeautifulSoup that the
    program calls ([find], [find_all], [get], [get_text]) are defined on
    the parsed tree. *)

From Stdlib Require Import ZArith NArith Ascii String DecimalString.
From stdpp Require Import base option list gmap strings.

Local Open Scope Z_scope.

(** ** Python strings *)

(** The characters of a text node: Unicode code points. *)
Definition ustring : Type := list N.

Module Str.

(** [str.isspace] of a character, as [str.strip] uses it: TAB..CR, FS..US,
    the blank, U+0085, U+00A0, U+1680, U+2000..U+200A, U+2028, U+2029,
    U+202F, U+205F and U+3000. *)
Definition isspace (c : N) : bool :=
  (((9 <=? c) && (c <=? 13)) || ((28 <=? c) && (c <=? 32)) || (c =? 133)
   || (c =? 160) || (c =? 5760) || ((8192 <=? c) && (c <=? 8202))
   || (c =? 8232) || (c =? 8233) || (c =? 8239) || (c =? 8287)
   || (c =? 12288))%N.

Fixpoint lstrip (s : ustring) : ustring :=
  match s with
  | [] => []
  | c :: s' => if isspace c then lstrip s' else s
  end.

Fixpoint rstrip (s : ustring) : ustring :=
  match s with
  | [] => []
  | c :: s' =>
      match rstrip s' with
      | [] => if isspace c then [] else [c]
      | r => c :: r
      end
  end.

(** [s.strip()] *)
Definition strip (s : ustring) : ustring := rstrip (lstrip s).

(** [s.startswith(p)] *)
Fixpoint startswith (s p : string) {struct p} : bool :=
  match p, s with
  | EmptyString, _ => true
  | String a p', String b s' => bool_decide (a = b) && startswith s' p'
  | String _ _, EmptyString => false
  end.

(** [s.endswith(p)] *)
Fixpoint endswith (s p : string) : bool :=
  bool_decide (s = p) ||
  match s with
  | EmptyString => false
  | String _ s' => endswith s' p
  end.

(** [needle in hay] *)
Fixpoint contains (hay needle : string) : bool :=
  startswith hay needle ||
  match hay with
  | EmptyString => false
  | String _ hay' => contains hay' needle
  end.

(** [sep.join(l)] *)
Fixpoint join (sep : string) (l : list string) : string :=
  match l with
  | [] => EmptyString
  | [x] => x
  | x :: l' => x +:+ sep +:+ join sep l'
  end.

(** [str(n)] for an integer. *)
Definition of_Z (n : Z) : string := NilZero.string_of_int (Z.to_int n).


(** [clean s]: [s] neither starts nor ends with whitespace. *)
Definition clean (s : ustring) : Prop := lstrip s = s /\ rstrip s = s.

End Str.

(** ** Python values that flow through the program: [str], [int] and the
    list of strings BeautifulSoup stores for a multi-valued attribute. *)

Inductive pyval :=
| PStr (s : string)
| PInt (z : Z)
| PList (l : list string).

#[global] Instance pyval_eq_dec : EqDecision pyval.
Proof. solve_decision. Defined.

(** ** The parsed tree (bs4.element)

    [NavigableString] stands for the strings [get_text] collects (text and
    CDATA sections), [Comment] for those it leaves out (comments,
    declarations, the contents of [script] and [style]). *)

#[warnings="-register-all"] Inductive node :=
| NavigableString (s : ustring)
| Comment (s : ustring)
| Tag (name : string) (attrs : gmap string pyval) (contents : list node).

Module Bs4.

(** [tag.descendants]: every node below [n], in document order. *)
Fixpoint descendants (n : node) : list node :=
  match n with
  | Tag _ _ cs => flat_map (fun c => c :: descendants c) cs
  | _ => []
  end.

(** How a string filter matches an attribute value: a plain value must be
    equal to it; a multi-valued attribute matches when one of its values
    is equal, or the values joined by a blank are. *)
Definition attr_matches (want : string) (v : pyval) : bool :=
  match v with
  | PStr s => bool_decide (s = want)
  | PList l => bool_decide (want ∈ l) || bool_decide (Str.join " " l = want)
  | PInt _ => false
  end.

Definition tag_attrs (n : node) : gmap string pyval :=
  match n with
  | Tag _ a _ => a
  | _ => ∅
  end.

(** The matcher built by [find(name, attrs)] / [find_all(name, attrs)]. *)
Definition matches (name : string) (flt : list (string * string)) (n : node) : bool :=
  match n with
  | Tag nm a _ =>
      bool_decide (nm = name) &&
      forallb (fun kw => match a !! kw.1 with
                         | Some v => attr_matches kw.2 v
                         | None => false
                         end) flt
  | _ => false
  end.

Definition find_all (name : string) (flt : list (string * string)) (n : node) : list node :=
  filter (fun d => matches name flt d) (descendants n).

(** [find] is [find_all] with [limit=1]: the first match or [None]. *)
Definition find (name : string) (flt : list (string * string)) (n : node) : option node :=
  head (find_all name flt n).

(** [tag.get(key, default)] *)
Definition get (n : node) (key : string) (dflt : pyval) : pyval :=
  default dflt (tag_attrs n !! key).

(** The strings [get_text] joins: text nodes only, comments left out. *)
Definition all_strings (n : node) : list ustring :=
  flat_map (fun d => match d with NavigableString s => [s] | _ => [] end)
           (descendants n).

(** [tag.get_text(strip=True)]: each string stripped, empty ones dropped,
    joined without a separator. *)
Definition get_text_strip (n : node) : ustring :=
  concat (filter (fun s => s ≠ []) (Str.strip <$> all_strings n)).

End Bs4.

(** ** requests: what goes on the wire and what comes back *)

Inductive http_method := GET | POST.

Record Request := {
  req_method : http_method;
  req_url : string;
  req_params : list (string * pyval);
  req_data : list (string * pyval);
  req_timeout : Z
}.

Record Response := {
  status_code : Z;
  reason : string;
  url : string;
  text : string
}.

(** The classes below [requests.exceptions.RequestException]. *)
Inductive request_failure :=
| ConnectionRefused
| NameResolution
| Timeout
| HTTPError
| OtherRequestFailure.

Record RequestException := {
  exc_kind : request_failure;
  exc_str : string
}.

(** ** Exceptions the program raises or lets through *)

Inductive exn :=
| Transport (e : RequestException)
| AuthenticationError (msg : string)
| TableDataError (msg : string)
| ConnectionError (msg : string) (cause : RequestException)
| AttributeError (msg : string)
| ParserRejectedMarkup (msg : string).

Inductive outcome (A : Type) :=
| Return (a : A)
| Raise (e : exn).
Arguments Return {A} a.
Arguments Raise {A} e.

(** ** The libraries as an interface *)

Class Libs := {
  (** [requests.Session]: the cookie jar and connection pool, together with
      the server it talks to. *)
  Session : Type;
  (** [requests.Session()] *)
  new_session : Session;
  (** [Session.request]: the session after the exchange, and either the
      exception the transport raised or the response. *)
  send : Session -> Request -> Session * (RequestException + Response);
  (** [BeautifulSoup(markup, 'html.parser')]: the root of the parsed tree,
      or the message of the [ParserRejectedMarkup] that bs4 raises when
      [html.parser] rejects the markup. *)
  BeautifulSoup : string -> string + node
}.

Section Client.

Context `{L : Libs}.

(** ** The object *)

Record PhpMyAdminClient := {
  base_url : string;
  username : string;
  password : string;
  session : Session
}.

(** The state a method runs in: the object and the requests attempted so
    far, oldest first. *)
Record World := {
  self : PhpMyAdminClient;
  wire : list Request
}.

Definition M (A : Type) : Type := World -> outcome A * World.

Definition ret {A} (a : A) : M A := fun w => (Return a, w).

Definition raise {A} (e : exn) : M A := fun w => (Raise e, w).

Definition bind {A B} (m : M A) (k : A -> M B) : M B :=
  fun w =>
    match m w with
    | (Return a, w') => k a w'
    | (Raise e, w') => (Raise e, w')
    end.

Definition get_self : M PhpMyAdminClient := fun w => (Return (self w), w).

(** [try: body except requests.exceptions.RequestException as e: handler(e)] *)
Definition try_except_RequestException {A} (body : M A)
    (handler : RequestException -> M A) : M A :=
  fun w =>
    match body w with
    | (Raise (Transport e), w') => handler e w'
    | r => r
    end.

End Client.

Declare Scope py_scope.
Delimit Scope py_scope with py.
Notation "x <- m ;; k" := (bind m (fun x => k))
  (at level 100, m at next level, right associativity) : py_scope.
Notation "m ;;; k" := (bind m (fun _ => k))
  (at level 100, right associativity) : py_scope.

Section Methods.

Context `{L : Libs}.
Local Open Scope py_scope.

(** [self.session.request(...)]: the request is attempted, the session is
    updated in place, and the transport's exception or response comes
    back. *)
Definition session_request (rq : Request) : M Response :=
  fun w =>
    let c := self w in
    let '(s', out) := send (session c) rq in
    let w' := {| self := {| base_url := base_url c; username := username c;
                            password := password c; session := s' |};
                 wire := wire w ++ [rq] |} in
    match out with
    | inl e => (Raise (Transport e), w')
    | inr r => (Return r, w')
    end.

Definition session_get (u : string) (params : list (string * pyval)) (timeout : Z) : M Response :=
  session_request {| req_method := GET; req_url := u; req_params := params;
                     req_data := []; req_timeout := timeout |}.

Definition session_post (u : string) (data : list (string * pyval)) (timeout : Z) : M Response :=
  session_request {| req_method := POST; req_url := u; req_params := [];
                     req_data := data; req_timeout := timeout |}.

Definition http_error_msg (kind : string) (r : Response) : string :=
  Str.of_Z (status_code r) +:+ " " +:+ kind +:+ " Error: " +:+ reason r
    +:+ " for url: " +:+ url r.

(** [Response.raise_for_status]: a 4xx or 5xx status becomes an [HTTPError]. *)
Definition http_error (r : Response) : option RequestException :=
  if (400 <=? status_code r) && (status_code r <? 500) then
    Some {| exc_kind := HTTPError; exc_str := http_error_msg "Client" r |}
  else if (500 <=? status_code r) && (status_code r <? 600) then
    Some {| exc_kind := HTTPError; exc_str := http_error_msg "Server" r |}
  else None.

Definition raise_for_status (r : Response) : M unit :=
  match http_error r with
  | Some e => raise (Transport e)
  | None => ret tt
  end.

(** [__init__] *)
Definition __init__ (base_url0 username0 password0 : string) : PhpMyAdminClient :=
  let base_url1 :=
    if negb (Str.endswith base_url0 "/") then base_url0 +:+ "/" else base_url0 in
  {| base_url := base_url1; username := username0; password := password0;
     session := new_session |}.

(** [BeautifulSoup(markup, 'html.parser')] inside a method. *)
Definition parse_html (markup : string) : M node :=
  match BeautifulSoup markup with
  | inl msg => raise (ParserRejectedMarkup msg)
  | inr soup => ret soup
  end.

(** [_extract_csrf_token] *)
Definition _extract_csrf_token (soup : node) : M pyval :=
  match Bs4.find "input" [("name", "token")] soup with
  | None => raise (AuthenticationError "Could not find CSRF token on login page.")
  | Some token_element =>
      match Bs4.tag_attrs token_element !! "value" with
      | None => raise (AuthenticationError "Could not find CSRF token on login page.")
      | Some v => ret v
      end
  end.

(** The marker [name="login_form"]. *)
Definition login_form_marker : string :=
  "name=" +:+ String "034" "login_form" +:+ String "034" "".

Definition connection_error {A} (e : RequestException) : M A :=
  raise (ConnectionError ("Connection error: " +:+ exc_str e) e).

(** The body of the [try] of [authenticate]. *)
Definition authenticate_body : M bool :=
  c <- get_self ;;
  response <- session_get (base_url c) [] 10 ;;
  raise_for_status response ;;;
  soup <- parse_html (text response) ;;
  token <- _extract_csrf_token soup ;;
  let login_data :=
    [ ("pma_username", PStr (username c));
      ("pma_password", PStr (password c));
      ("server", PStr "1");
      ("token", token) ] in
  response <- session_post (base_url c +:+ "index.php") login_data 10 ;;
  raise_for_status response ;;;
  if Str.contains (text response) login_form_marker then
    raise (AuthenticationError "Login failed. Check credentials.")
  else ret true.

Definition authenticate : M bool :=
  try_except_RequestException authenticate_body connection_error.

Definition none_has_no (attr : string) : string :=
  "'NoneType' object has no attribute '" +:+ attr +:+ "'".

(** [_extract_headers] *)
Definition _extract_headers (table : node) : M (list pyval) :=
  match Bs4.find "thead" [] table with
  | None => raise (AttributeError (none_has_no "find_all"))
  | Some thead =>
      ret ((fun th => Bs4.get th "data-column" (PStr "N/A"))
             <$> Bs4.find_all "th" [("class", "column_heading")] thead)
  end.

(** [_extract_table_data] *)
Definition _extract_table_data (table : node) : M (list (list ustring)) :=
  match Bs4.find "tbody" [] table with
  | None => raise (AttributeError (none_has_no "find_all"))
  | Some tbody =>
      ret ((fun tr => Bs4.get_text_strip <$> Bs4.find_all "td" [("class", "data")] tr)
             <$> Bs4.find_all "tr" [] tbody)
  end.

Definition table_not_found_msg (database table : string) : string :=
  "Could not find table data for " +:+ database +:+ "." +:+ table +:+ ". "
    +:+ "Check database/table names or permissions.".

(** The body of the [try] of [get_table_data]. *)
Definition get_table_data_body (database table : string)
    : M (list pyval * list (list ustring)) :=
  c <- get_self ;;
  let params :=
    [ ("route", PStr "/sql"); ("db", PStr database);
      ("table", PStr table); ("pos", PInt 0) ] in
  response <- session_get (base_url c +:+ "index.php") params 10 ;;
  raise_for_status response ;;;
  soup <- parse_html (text response) ;;
  match Bs4.find "table" [("class", "table_results")] soup with
  | None => raise (TableDataError (table_not_found_msg database table))
  | Some result_table =>
      headers <- _extract_headers result_table ;;
      table_data <- _extract_table_data result_table ;;
      ret (headers, table_data)
  end.

Definition get_table_data (database table : string)
    : M (list pyval * list (list ustring)) :=
  try_except_RequestException (get_table_data_body database table) connection_error.

(** [close]: the session is released; nothing of the object changes. *)
Definition close : M unit := ret tt.

(** ** Sequences of method calls on one client *)

Inductive call :=
| CallAuthenticate
| CallGetTableData (database table : string)
| CallClose.

Definition run_call (k : call) (w : World) : World :=
  match k with
  | CallAuthenticate => (authenticate w).2
  | CallGetTableData d t => (get_table_data d t w).2
  | CallClose => (close w).2
  end.

Definition run_calls (ks : list call) (w : World) : World :=
  foldl (fun w k => run_call k w) w ks.

End Methods.

(** * Specification vocabulary *)

(** ** Trees *)

(** [attr_has want v]: the attribute value [v] is, or lists, [want]. *)
Inductive attr_has (want : string) : pyval -> Prop :=
| attr_has_str : attr_has want (PStr want)
| attr_has_member l : want ∈ l -> attr_has want (PList l)
| attr_has_joined l : Str.join " " l = want -> attr_has want (PList l).

(** [element name flt n]: [n] is a tag called [name] that carries, for
    every pair of [flt], that attribute with that value. *)
Inductive element (name : string) (flt : list (string * string)) : node -> Prop :=
| element_tag a cs :
    Forall (fun kw => exists v, a !! kw.1 = Some v /\ attr_has kw.2 v) flt ->
    element name flt (Tag name a cs).

(** [has_class cls n]: [n] is a tag, whatever its name, of class [cls]. *)
Definition has_class (cls : string) (n : node) : Prop :=
  exists name, element name [("class", cls)] n.

(** [first_of P l x]: [x] is the first element of [l] that satisfies [P]. *)
Definition first_of {A} (P : A -> Prop) (l : list A) (x : A) : Prop :=
  exists before after, l = before ++ x :: after /\ Forall (fun y => ~ P y) before /\ P x.

(** [those P l xs]: [xs] are the elements of [l] that satisfy [P], in the
    order of [l]. *)
Inductive those {A} (P : A -> Prop) : list A -> list A -> Prop :=
| those_nil : those P [] []
| those_skip x l xs : ~ P x -> those P l xs -> those P (x :: l) xs
| those_take x l xs : P x -> those P l xs -> those P (x :: l) (x :: xs).

(** ** The client *)

Section Vocabulary.

Context `{L : Libs}.

(** The three requests the client makes. *)
Definition login_page_request (c : PhpMyAdminClient) : Request :=
  {| req_method := GET; req_url := base_url c; req_params := [];
     req_data := []; req_timeout := 10 |}.

Definition login_request (c : PhpMyAdminClient) (token : pyval) : Request :=
  {| req_method := POST; req_url := base_url c +:+ "index.php"; req_params := [];
     req_data := [ ("pma_username", PStr (username c));
                   ("pma_password", PStr (password c));
                   ("server", PStr "1");
                   ("token", token) ];
     req_timeout := 10 |}.

Definition table_request (c : PhpMyAdminClient) (database table : string) : Request :=
  {| req_method := GET; req_url := base_url c +:+ "index.php";
     req_params := [ ("route", PStr "/sql"); ("db", PStr database);
                     ("table", PStr table); ("pos", PInt 0) ];
     req_data := []; req_timeout := 10 |}.

(** The world once [rq] has been attempted and left the session as [s]. *)
Definition after (w : World) (s : Session) (rq : Request) : World :=
  {| self := {| base_url := base_url (self w); username := username (self w);
                password := password (self w); session := s |};
     wire := wire w ++ [rq] |}.

(** The requests a call attempts, oldest first. *)
Definition requests_of {A} (m : M A) (w : World) : list Request :=
  drop (length (wire w)) (wire (m w).2).

(** [raise_for_status] lets the response through. *)
Definition status_ok (r : Response) : Prop :=
  status_code r < 400 \/ 600 <= status_code r.

Definition chained (e : RequestException) : exn :=
  ConnectionError ("Connection error: " +:+ exc_str e) e.





Definition exception_of {A} (o : outcome A) : option exn :=
  match o with
  | Raise e => Some e
  | Return _ => None
  end.

(** What the caller of a method sees raised, if anything. *)
Definition observed (k : call) (w : World) : option exn :=
  match k with
  | CallAuthenticate => exception_of (authenticate w).1
  | CallGetTableData d t => exception_of (get_table_data d t w).1
  | CallClose => None
  end.

(** [transport_failure k w e]: during the call [k] from [w], one of its
    exchanges fails with [e]: the transport raises [e] (connection refused,
    timeout, name resolution), or the response has a 4xx or 5xx status that
    [raise_for_status] turns into [e]. *)
Inductive transport_failure : call -> World -> RequestException -> Prop :=
| login_page_unreachable w s e :
    send (session (self w)) (login_page_request (self w)) = (s, inl e) ->
    transport_failure CallAuthenticate w e
| login_page_bad_status w s r e :
    send (session (self w)) (login_page_request (self w)) = (s, inr r) ->
    http_error r = Some e ->
    transport_failure CallAuthenticate w e
| login_post_unreachable w s1 r1 soup el token s2 e :
    send (session (self w)) (login_page_request (self w)) = (s1, inr r1) ->
    status_ok r1 ->
    BeautifulSoup (text r1) = inr soup ->
    first_of (element "input" [("name", "token")]) (Bs4.descendants soup) el ->
    Bs4.tag_attrs el !! "value" = Some token ->
    send s1 (login_request (self w) token) = (s2, inl e) ->
    transport_failure CallAuthenticate w e
| login_post_bad_status w s1 r1 soup el token s2 r2 e :
    send (session (self w)) (login_page_request (self w)) = (s1, inr r1) ->
    status_ok r1 ->
    BeautifulSoup (text r1) = inr soup ->
    first_of (element "input" [("name", "token")]) (Bs4.descendants soup) el ->
    Bs4.tag_attrs el !! "value" = Some token ->
    send s1 (login_request (self w) token) = (s2, inr r2) ->
    http_error r2 = Some e ->
    transport_failure CallAuthenticate w e
| table_page_unreachable d t w s e :
    send (session (self w)) (table_request (self w) d t) = (s, inl e) ->
    transport_failure (CallGetTableData d t) w e
| table_page_bad_status d t w s r e :
    send (session (self w)) (table_request (self w) d t) = (s, inr r) ->
    http_error r = Some e ->
    transport_failure (CallGetTableData d t) w e.

Definition credentials (c : PhpMyAdminClient) : string * string * string :=
  (base_url c, username c, password c).

(** [frames m]: running [m] leaves the credentials of [self] as they were. *)
Definition frames {A} (m : M A) : Prop :=
  forall w, credentials (self (m w).2) = credentials (self w).

(** [served d t w page]: the results page that [get_table_data d t] fetches
    from [w] arrives and parses to [page]. *)
Definition served (d t : string) (w : World) (page : node) : Prop :=
  exists s1 r,
    send (session (self w)) (table_request (self w) d t) = (s1, inr r) /\
    status_ok r /\ BeautifulSoup (text r) = inr page.

(** The three kinds of error the program declares to raise. *)
Definition domain_kind (e : exn) : Prop :=
  match e with
  | AuthenticationError _ | TableDataError _ | ConnectionError _ _ => True
  | Transport _ | AttributeError _ | ParserRejectedMarkup _ => False
  end.

End Vocabulary.

(** ** Fixtures: a canned server and the pages it serves *)

Module Fixtures.

Definition document (contents : list node) : node := Tag "[document]" ∅ contents.

(** Markup that [html.parser] rejects: each ends in an unfinished marked
    section. *)
Definition malformed_login_markup : string :=
  "<form><input name='token' value='abc123'></form><![ x".
Definition malformed_no_token_markup : string :=
  "<html><body><p>no token here</p><![ x</body></html>".
Definition malformed_bare_token_markup : string :=
  "<form><input name='token'></form><![ x".
Definition malformed_results_markup : string :=
  "<table class='table_results'><thead><tr><th class='column_heading' data-column='id'>id</th></tr></thead><tbody><tr><td class='data'>1</td></tr></tbody></table><![ x".
Definition malformed_no_results_markup : string :=
  "<div class='error'>no such table</div><![ x".

Definition malformed : list string :=
  [ malformed_login_markup; malformed_no_token_markup; malformed_bare_token_markup;
    malformed_results_markup; malformed_no_results_markup ].

Definition rejection : string :=
  "The markup you provided was rejected by the parser.".

(** A parser that knows the fixture pages by their markup, and the
    markup it rejects. *)
Definition parse (pages : list (string * node)) (markup : string) : string + node :=
  if bool_decide (markup ∈ malformed) then inl rejection
  else inr (default (document [])
                    (snd <$> List.find (fun p => bool_decide (p.1 = markup)) pages)).

(** The code points of an ASCII literal. *)
Definition txt (s : string) : ustring := N_of_ascii <$> list_ascii_of_string s.

Definition respond (status : Z) (why : string) (rq : Request) (body : string) : Response :=
  {| status_code := status; reason := why; url := req_url rq; text := body |}.

(** The session counts the exchanges; the server answers a GET with [page]
    and a POST with [landing]. *)
Definition serving (pages : list (string * node)) (page landing : string) : Libs :=
  {| Session := nat;
     new_session := 0%nat;
     send := fun s rq =>
       (S s, inr (respond 200 "OK" rq
                    match req_method rq with GET => page | POST => landing end));
     BeautifulSoup := parse pages |}.

(** A server nobody listens on. *)
Definition refusing : Libs :=
  {| Session := nat;
     new_session := 0%nat;
     send := fun s rq =>
       (S s, inl {| exc_kind := ConnectionRefused; exc_str := "Connection refused" |});
     BeautifulSoup := parse [] |}.

Definition fresh (L : Libs) : World :=
  {| self := __init__ "http://localhost/phpmyadmin" "test" "secret"; wire := [] |}.

Definition input (a : gmap string pyval) : node := Tag "input" a [].

(** *** Login pages *)

Definition login_markup : string :=
  "<form method='post'><input type='hidden' name='token' value='abc123'></form>".
Definition login_page : node :=
  document
    [ Tag "form" {[ "method" := PStr "post" ]}
        [ input {[ "type" := PStr "hidden"; "name" := PStr "token";
                   "value" := PStr "abc123" ]} ] ].

Definition two_tokens_markup : string :=
  "<form><input name='token' value='zzz'></form><form><input name='token' value='abc123'></form>".
Definition two_tokens_page : node :=
  document
    [ Tag "form" ∅ [ input {[ "name" := PStr "token"; "value" := PStr "zzz" ]} ];
      Tag "form" ∅ [ input {[ "name" := PStr "token"; "value" := PStr "abc123" ]} ] ].

Definition no_token_markup : string :=
  "<form><input name='pma_username'></form>".
Definition no_token_page : node :=
  document [ Tag "form" ∅ [ input {[ "name" := PStr "pma_username" ]} ] ].

Definition bare_token_markup : string :=
  "<form><input name='token'></form>".
Definition bare_token_page : node :=
  document [ Tag "form" ∅ [ input {[ "name" := PStr "token" ]} ] ].

Definition token_then_bare_markup : string :=
  "<form><input name='token' value='t1'></form><form><input name='token'></form>".
Definition token_then_bare_page : node :=
  document
    [ Tag "form" ∅ [ input {[ "name" := PStr "token"; "value" := PStr "t1" ]} ];
      Tag "form" ∅ [ input {[ "name" := PStr "token" ]} ] ].

Definition welcome : string := "<html>Welcome to phpMyAdmin</html>".
Definition rejected : string := "<form " +:+ login_form_marker +:+ "></form>".

(** *** Results pages *)

Definition th (a : gmap string pyval) (label : string) : node :=
  Tag "th" a [NavigableString (txt label)].
Definition td (a : gmap string pyval) (content : ustring) : node :=
  Tag "td" a [NavigableString content].
Definition heading (column : string) : node :=
  th {[ "class" := PList ["column_heading"]; "data-column" := PStr column ]} column.
Definition data (content : ustring) : node :=
  td {[ "class" := PList ["data"] ]} content.

(** U+00A0, the character of [&nbsp;]. *)
Definition nbsp : N := 160.

(** The grid of the results page, under a tag called [name]. *)
Definition grid (name : string) : node :=
  Tag name {[ "class" := PList ["table_results"] ]}
    [ Tag "thead" ∅ [ Tag "tr" ∅ [ heading "id"; heading "name" ] ];
      Tag "tbody" ∅
        [ Tag "tr" ∅ [ data (nbsp :: txt "1 "); data (txt " alice") ];
          Tag "tr" ∅ [ data (txt "2"); data (txt "bob ") ] ] ].

Definition results_markup : string :=
  "<table class='table_results'><thead><tr><th class='column_heading' data-column='id'>id</th><th class='column_heading' data-column='name'>name</th></tr></thead><tbody><tr><td class='data'>&nbsp;1 </td><td class='data'> alice</td></tr><tr><td class='data'>2</td><td class='data'>bob </td></tr></tbody></table>".
Definition results_page : node := document [ grid "table" ].

Definition div_results_markup : string :=
  "<div class='table_results'><thead><tr><th class='column_heading' data-column='id'>id</th><th class='column_heading' data-column='name'>name</th></tr></thead><tbody><tr><td class='data'>&nbsp;1 </td><td class='data'> alice</td></tr><tr><td class='data'>2</td><td class='data'>bob </td></tr></tbody></div>".
Definition div_results_page : node := document [ grid "div" ].

Definition no_results_markup : string :=
  "<div class='error'>#1146 - Table 'testDB.users' doesn't exist</div>".
Definition no_results_page : node :=
  document [ Tag "div" {[ "class" := PList ["error"] ]}
               [ NavigableString (txt "#1146 - Table 'testDB.users' doesn't exist") ] ].

Definition no_thead_markup : string :=
  "<table class='table_results'><tbody><tr><td class='data'>1</td></tr></tbody></table>".
Definition no_thead_page : node :=
  document
    [ Tag "table" {[ "class" := PList ["table_results"] ]}
        [ Tag "tbody" ∅ [ Tag "tr" ∅ [ data (txt "1") ] ] ] ].

Definition no_tbody_markup : string :=
  "<table class='table_results'><thead><tr><th class='column_heading' data-column='id'>id</th></tr></thead></table>".
Definition no_tbody_page : node :=
  document
    [ Tag "table" {[ "class" := PList ["table_results"] ]}
        [ Tag "thead" ∅ [ Tag "tr" ∅ [ heading "id" ] ] ] ].

Definition ragged_markup : string :=
  "<table class='table_results'><thead><tr><th class='column_heading' data-column='id'>id</th><th class='column_heading' data-column='name'>name</th></tr></thead><tbody><tr><td class='data'>1</td></tr><tr><td class='data'>2</td><td class='data'>bob</td><td class='data'>x</td></tr></tbody></table>".
Definition ragged_page : node :=
  document
    [ Tag "table" {[ "class" := PList ["table_results"] ]}
        [ Tag "thead" ∅ [ Tag "tr" ∅ [ heading "id"; heading "name" ] ];
          Tag "tbody" ∅
            [ Tag "tr" ∅ [ data (txt "1") ];
              Tag "tr" ∅ [ data (txt "2"); data (txt "bob"); data (txt "x") ] ] ] ].

Definition pages : list (string * node) :=
  [ (login_markup, login_page); (two_tokens_markup, two_tokens_page);
    (no_token_markup, no_token_page); (bare_token_markup, bare_token_page);
    (token_then_bare_markup, token_then_bare_page);
    (results_markup, results_page); (div_results_markup, div_results_page);
    (no_results_markup, no_results_page); (no_thead_markup, no_thead_page);
    (no_tbody_markup, no_tbody_page); (ragged_markup, ragged_page) ].

(** *** The servers *)

Definition logging_in : Libs := serving pages login_markup welcome.
Definition turned_away : Libs := serving pages login_markup rejected.
Definition two_tokens : Libs := serving pages two_tokens_markup welcome.
Definition no_token : Libs := serving pages no_token_markup welcome.
Definition bare_token : Libs := serving pages bare_token_markup welcome.
Definition token_then_bare : Libs := serving pages token_then_bare_markup welcome.
Definition with_results : Libs := serving pages results_markup welcome.
Definition without_results : Libs := serving pages no_results_markup welcome.
Definition without_thead : Libs := serving pages no_thead_markup welcome.
Definition without_tbody : Libs := serving pages no_tbody_markup welcome.
Definition ragged : Libs := serving pages ragged_markup welcome.
Definition malformed_login : Libs := serving pages malformed_login_markup welcome.
Definition malformed_no_token : Libs := serving pages malformed_no_token_markup welcome.
Definition malformed_bare_token : Libs := serving pages malformed_bare_token_markup welcome.
Definition malformed_no_results : Libs := serving pages malformed_no_results_markup welcome.

End Fixtures.

(** * The script at the end of the module *)

(** The kinds the [except] clause of the script names.  The built-in
    [ConnectionError] is one of them; the exceptions of [requests] are not. *)
Definition is_domain (e : exn) : bool :=
  match e with
  | AuthenticationError _ | TableDataError _ | ConnectionError _ _ => true
  | Transport _ | AttributeError _ | ParserRejectedMarkup _ => false
  end.

(** [str(e)] *)
Definition str_exn (e : exn) : string :=
  match e with
  | Transport e => exc_str e
  | AuthenticationError msg | TableDataError msg | ConnectionError msg _
  | AttributeError msg | ParserRejectedMarkup msg => msg
  end.

Section Script.

Context `{L : Libs}.

(** [tabulate(table_data, headers=headers, tablefmt='grid',
    stralign='left', showindex=True)] *)
Variable tabulate : list (list ustring) -> list pyval -> string.

(** The process: the client and its requests, what was printed (one entry
    for each [print]), and how often the session was closed. *)
Record Process := {
  world : World;
  stdout : list string;
  closes : nat
}.

Definition P (A : Type) : Type := Process -> outcome A * Process.

Definition pbind {A B} (m : P A) (k : A -> P B) : P B :=
  fun p =>
    match m p with
    | (Return a, p') => k a p'
    | (Raise e, p') => (Raise e, p')
    end.

(** A method call on the client. *)
Definition call_method {A} (m : M A) : P A :=
  fun p =>
    let '(o, w) := m (world p) in
    (o, {| world := w; stdout := stdout p; closes := closes p |}).

Definition print (line : string) : P unit :=
  fun p => (Return tt, {| world := world p; stdout := stdout p ++ [line];
                          closes := closes p |}).

(** [display_table] *)
Definition display_table (headers : list pyval) (table_data : list (list ustring)) : P unit :=
  print (tabulate table_data headers).

(** [client.close()] *)
Definition client_close : P unit :=
  fun p =>
    let '(o, w) := close (world p) in
    (o, {| world := w; stdout := stdout p; closes := S (closes p) |}).

(** [try: body except (AuthenticationError, TableDataError, ConnectionError) as e: handler(e)] *)
Definition try_except_domain {A} (body : P A) (handler : exn -> P A) : P A :=
  fun p =>
    match body p with
    | (Raise e, p') => if is_domain e then handler e p' else (Raise e, p')
    | r => r
    end.

(** [try: body finally: cleanup] *)
Definition try_finally {A} (body : P A) (cleanup : P unit) : P A :=
  fun p =>
    match body p with
    | (o, p') =>
        match cleanup p' with
        | (Return _, p'') => (o, p'')
        | (Raise e, p'') => (Raise e, p'')
        end
    end.

(** The block under [if __name__ == "__main__"], for any target and
    credentials.  The constructor is the first statement of the [try] and
    cannot fail, so [client] is set when the [finally] tests it. *)
Definition script (phpmyadmin_url user pass database table : string)
    : outcome unit * Process :=
  let client := __init__ phpmyadmin_url user pass in
  try_finally
    (try_except_domain
       (pbind (call_method authenticate) (fun _ =>
        pbind (call_method (get_table_data database table)) (fun ht =>
        display_table ht.1 ht.2)))
       (fun e => print ("Error: " +:+ str_exn e)))
    client_close
    {| world := {| self := client; wire := [] |}; stdout := []; closes := 0 |}.

(** The script as the source has it. *)
Definition main : outcome unit * Process :=
  script "http://185.244.219.162/phpmyadmin/" "test" "JHFBdsyf2eg8*" "testDB" "users".

End Script.

(** ** Vocabulary for the paths of the methods and of the script *)

Section PathVocabulary.

Context `{L : Libs}.

(** What [authenticate] does on the answer to its POST. *)
Definition login_verdict (out : RequestException + Response) : outcome bool :=
  match out with
  | inl e => Raise (chained e)
  | inr r2 =>
      match http_error r2 with
      | Some e => Raise (chained e)
      | None =>
          if Str.contains (text r2) login_form_marker
          then Raise (AuthenticationError "Login failed. Check credentials.")
          else Return true
      end
  end.

(** What [get_table_data] does with the page once it has arrived. *)
Definition table_verdict (d t : string) (soup : node)
    : outcome (list pyval * list (list ustring)) :=
  match Bs4.find "table" [("class", "table_results")] soup with
  | None => Raise (TableDataError (table_not_found_msg d t))
  | Some T =>
      match Bs4.find "thead" [] T, Bs4.find "tbody" [] T with
      | Some thead, Some tbody =>
          Return ((fun th => Bs4.get th "data-column" (PStr "N/A"))
                    <$> Bs4.find_all "th" [("class", "column_heading")] thead,
                  (fun tr => Bs4.get_text_strip
                               <$> Bs4.find_all "td" [("class", "data")] tr)
                    <$> Bs4.find_all "tr" [] tbody)
      | _, _ => Raise (AttributeError (none_has_no "find_all"))
      end
  end.

(** The world the script starts its calls in. *)
Definition start (phpmyadmin_url user pass : string) : World :=
  {| self := __init__ phpmyadmin_url user pass; wire := [] |}.

(** What the [except] and [finally] clauses make of an exception [e] that
    leaves the body in world [w]. *)
Definition settled (e : exn) (w : World) : outcome unit * Process :=
  if is_domain e
  then (Return tt, {| world := w; stdout := ["Error: " +:+ str_exn e]; closes := 1 |})
  else (Raise e, {| world := w; stdout := []; closes := 1 |}).

(** The ways through [authenticate]: where it stops and what it has sent. *)
Inductive authenticate_path (w : World) : outcome bool -> list Request -> Prop :=
| path_unreachable s e :
    send (session (self w)) (login_page_request (self w)) = (s, inl e) ->
    authenticate_path w (Raise (chained e)) [login_page_request (self w)]
| path_bad_status s r e :
    send (session (self w)) (login_page_request (self w)) = (s, inr r) ->
    http_error r = Some e ->
    authenticate_path w (Raise (chained e)) [login_page_request (self w)]
| path_rejected s r msg :
    send (session (self w)) (login_page_request (self w)) = (s, inr r) ->
    status_ok r ->
    BeautifulSoup (text r) = inl msg ->
    authenticate_path w (Raise (ParserRejectedMarkup msg)) [login_page_request (self w)]
| path_no_token s r soup :
    send (session (self w)) (login_page_request (self w)) = (s, inr r) ->
    status_ok r ->
    BeautifulSoup (text r) = inr soup ->
    (forall v, _extract_csrf_token soup (after w s (login_page_request (self w))) <>
               (Return v, after w s (login_page_request (self w)))) ->
    authenticate_path w
      (Raise (AuthenticationError "Could not find CSRF token on login page."))
      [login_page_request (self w)]
| path_posted s1 r soup el token s2 out :
    send (session (self w)) (login_page_request (self w)) = (s1, inr r) ->
    status_ok r ->
    BeautifulSoup (text r) = inr soup ->
    first_of (element "input" [("name", "token")]) (Bs4.descendants soup) el ->
    Bs4.tag_attrs el !! "value" = Some token ->
    send s1 (login_request (self w) token) = (s2, out) ->
    authenticate_path w (login_verdict out)
      [login_page_request (self w); login_request (self w) token].

End PathVocabulary.

(** ** Fixtures for the script *)

Module ScriptFixtures.
Import Fixtures.

(** A server with a login page, a landing page after the login and a
    results page for the table request (the GET that has parameters). *)
Definition site (login landing results : string) : Libs :=
  {| Session := nat;
     new_session := 0%nat;
     send := fun s rq =>
       (S s, inr (respond 200 "OK" rq
                    match req_method rq with
                    | POST => landing
                    | GET => match req_params rq with [] => login | _ => results end
                    end));
     BeautifulSoup := parse pages |}.

Definition show (v : pyval) : string :=
  match v with
  | PStr s => s
  | PInt z => Str.of_Z z
  | PList l => Str.join " " l
  end.

(** A text of Latin-1 characters as a string. *)
Definition untxt (s : ustring) : string := string_of_list_ascii (ascii_of_N <$> s).

(** A stand-in for [tabulate]: the headers, then the rows. *)
Definition render (rows : list (list ustring)) (hdrs : list pyval) : string :=
  Str.join " | " (show <$> hdrs) +:+ " :: "
    +:+ Str.join "; " ((fun row => Str.join " | " (untxt <$> row)) <$> rows).

Definition open_site : Libs := site login_markup welcome results_markup.
Definition broken_site : Libs := site login_markup welcome no_thead_markup.

End ScriptFixtures.

(** * Properties *)

(** ** Strings *)

Module StrFacts.
Import Str.

Lemma app_cons c s t : String c s +:+ t = String c (s +:+ t).
Proof. reflexivity. Qed.

Lemma app_empty_l s : "" +:+ s = s.
Proof. reflexivity. Qed.

Lemma app_empty_r s : s +:+ "" = s.
Proof. induction s as [|c s IH]; [done|]. by rewrite app_cons, IH. Qed.

Lemma app_assoc s t u : (s +:+ t) +:+ u = s +:+ t +:+ u.
Proof. induction s as [|c s IH]; [done|]. by rewrite !app_cons, IH. Qed.

Lemma startswith_spec s p : startswith s p = true <-> exists b, s = p +:+ b.
Proof.
  revert s. induction p as [|a p IH]; intros s; simpl.
  - split; [intros _; by exists s | done].
  - destruct s as [|b s].
    + split; [done | intros [x Hx]; discriminate].
    + rewrite andb_true_iff, bool_decide_eq_true, IH. split.
      * intros [-> [x ->]]. by exists x.
      * intros [x Hx]. rewrite app_cons in Hx. injection Hx as -> ->. eauto.
Qed.

Lemma contains_spec hay needle :
  contains hay needle = true <-> exists a b, hay = a +:+ needle +:+ b.
Proof.
  induction hay as [|c hay IH]; simpl; rewrite orb_true_iff.
  - split.
    + intros [H|H]; [|done]. apply startswith_spec in H as [b Hb]. by exists "", b.
    + intros [a [b H]]. left. apply startswith_spec.
      destruct a; [by exists b | discriminate].
  - rewrite IH, startswith_spec. split.
    + intros [[b Hb] | [a [b Hab]]]; [by exists "", b |].
      exists (String c a), b. by rewrite app_cons, Hab.
    + intros [a [b H]]. destruct a as [|c' a].
      * left. by exists b.
      * right. rewrite app_cons in H. injection H as _ ->. eauto.
Qed.

Lemma endswith_spec s p : endswith s p = true <-> exists a, s = a +:+ p.
Proof.
  induction s as [|c s IH]; simpl; rewrite orb_true_iff, bool_decide_eq_true.
  - split.
    + intros [<-|H]; [by exists "" | done].
    + intros [a H]. left. destruct a; [done | discriminate].
  - rewrite IH. split.
    + intros [<- | [a ->]]; [by exists "" | by exists (String c a)].
    + intros [a H]. destruct a as [|c' a]; [by left |].
      right. rewrite app_cons in H. injection H as _ ->. eauto.
Qed.

(** Stripping: what it removes and what it leaves. *)




Lemma rstrip_idem (s : ustring) : rstrip (rstrip s) = rstrip s.
Proof.
  induction s as [|c s IH]; [done|]. simpl.
  destruct (rstrip s) as [|d r] eqn:E.
  - destruct (isspace c) eqn:Ec; [done|]. simpl. by rewrite Ec.
  - simpl. simpl in IH. by rewrite IH.
Qed.

Lemma lstrip_length (s : ustring) : (length (lstrip s) <= length s)%nat.
Proof. induction s as [|c s IH]; simpl; [lia|]. destruct (isspace c); simpl; lia. Qed.

Lemma lstrip_fixed c (s : ustring) : lstrip (c :: s) = c :: s -> isspace c = false.
Proof.
  simpl. destruct (isspace c); [|done]. intros H.
  pose proof (lstrip_length s) as Hlen. rewrite H in Hlen. simpl in Hlen. lia.
Qed.

Lemma lstrip_cons_app c (s t : ustring) :
  isspace c = false -> lstrip ((c :: s) ++ t) = (c :: s) ++ t.
Proof. intros E. simpl. by rewrite E. Qed.

Lemma lstrip_idem (s : ustring) : lstrip (lstrip s) = lstrip s.
Proof.
  induction s as [|c s IH]; [done|]. simpl.
  destruct (isspace c) eqn:E; [done|]. simpl. by rewrite E.
Qed.

Lemma lstrip_rstrip (s : ustring) : lstrip s = s -> lstrip (rstrip s) = rstrip s.
Proof.
  destruct s as [|c s]; [done|]. intros H%lstrip_fixed. simpl.
  destruct (rstrip s); rewrite ?H; simpl; by rewrite H.
Qed.

Lemma strip_clean (s : ustring) : clean (strip s).
Proof.
  unfold clean, strip. split; [|apply rstrip_idem].
  apply lstrip_rstrip, lstrip_idem.
Qed.

Lemma clean_strip (s : ustring) : clean s -> strip s = s.
Proof. intros [Hl Hr]. unfold strip. by rewrite Hl. Qed.


Lemma clean_app (s t : ustring) : s <> [] -> t <> [] -> clean s -> clean t -> clean (s ++ t).
Proof.
  intros Hs Ht [Hls Hrs] [Hlt Hrt]. split.
  - destruct s as [|c s]; [done|]. apply lstrip_cons_app. eauto using lstrip_fixed.
  - clear Hls Hrs Hs Hlt. induction s as [|c s IH]; [done|].
    simpl. rewrite IH.
    destruct (s ++ t) eqn:E; [|done].
    by apply app_eq_nil in E as [_ ->].
Qed.

Lemma concat_clean (l : list ustring) :
  Forall (fun s => clean s /\ s <> []) l -> clean (concat l).
Proof.
  induction 1 as [|x l [Hx Hne] _ IH]; [done|]. simpl.
  destruct (decide (concat l = [])) as [->|Hj]; [by rewrite app_nil_r|].
  by apply clean_app.
Qed.

(** The whitespace of [str.isspace], one character at a time. *)
Lemma isspace_spec c :
  isspace c = true <->
  c ∈ [9; 10; 11; 12; 13; 28; 29; 30; 31; 32; 133; 160; 5760; 8192; 8193; 8194;
       8195; 8196; 8197; 8198; 8199; 8200; 8201; 8202; 8232; 8233; 8239; 8287;
       12288]%N.
Proof.
  unfold isspace. rewrite !orb_true_iff, !andb_true_iff, !N.leb_le, !N.eqb_eq.
  rewrite !elem_of_cons, elem_of_nil. lia.
Qed.

End StrFacts.

(** ** The parsed tree: what the queries select *)

Module Bs4Facts.
Import Bs4.

Lemma attr_matches_has want v : attr_matches want v = true <-> attr_has want v.
Proof.
  destruct v as [s|z|l]; simpl.
  - rewrite bool_decide_eq_true. split; [intros ->; constructor | by inversion 1].
  - split; [done | inversion 1].
  - rewrite orb_true_iff, !bool_decide_eq_true. split.
    + intros [H|H]; [by apply attr_has_member | by apply attr_has_joined].
    + inversion 1; auto.
Qed.

Lemma Is_true_matches name flt n : Is_true (matches name flt n) <-> element name flt n.
Proof.
  destruct n as [s|s|nm a cs]; simpl; [split; [done | inversion 1].. |].
  rewrite andb_True, bool_decide_spec, forallb_True. split.
  - intros [-> H]. constructor. eapply Forall_impl; [exact H|]. simpl.
    intros [k w]; simpl. destruct (a !! k) as [v|]; [|done].
    intros Hv%Is_true_true%attr_matches_has. eauto.
  - inversion 1 as [a' cs' H']; subst. split; [done|].
    eapply Forall_impl; [exact H'|]. simpl.
    intros [k w] [v [-> Hv]]. by apply Is_true_true, attr_matches_has.
Qed.

Lemma matches_element name flt n : matches name flt n = true <-> element name flt n.
Proof. rewrite <- Is_true_true. apply Is_true_matches. Qed.

Lemma has_class_attr cls n :
  has_class cls n -> exists v, tag_attrs n !! "class" = Some v /\ attr_has cls v.
Proof.
  intros [name H]. destruct H as [a cs H]. simpl.
  by apply Forall_cons_1 in H as [H _].
Qed.

(** [find_all] returns the matching descendants in document order. *)
Lemma find_all_those name flt n xs :
  those (element name flt) (descendants n) xs <-> find_all name flt n = xs.
Proof.
  unfold find_all. generalize (descendants n) as l. intros l. split.
  - induction 1 as [|x l xs Hx _ IH|x l xs Hx _ IH].
    + done.
    + rewrite filter_cons_False; [done|]. by rewrite Is_true_matches.
    + rewrite filter_cons_True; [by f_equal|]. by rewrite Is_true_matches.
  - intros <-. induction l as [|x l IH]; [constructor|].
    destruct (decide (Is_true (matches name flt x))) as [Hx|Hx].
    + rewrite filter_cons_True by done. apply those_take; [|done].
      by apply Is_true_matches.
    + rewrite filter_cons_False by done. apply those_skip; [|done].
      by rewrite <- Is_true_matches.
Qed.

(** [find] returns the first matching descendant in document order. *)
Lemma find_first name flt n x :
  first_of (element name flt) (descendants n) x -> find name flt n = Some x.
Proof.
  intros (before & after & Hl & Hb & Hx). unfold find, find_all. rewrite Hl.
  assert (Hnil : filter (fun d => Is_true (matches name flt d)) before = []).
  { clear Hl. induction Hb as [|y l Hy _ IH]; [done|].
    rewrite filter_cons_False; [exact IH|]. by rewrite Is_true_matches. }
  rewrite filter_app, Hnil, filter_cons_True by (by apply Is_true_matches).
  done.
Qed.

Lemma find_Some_first name flt n x :
  find name flt n = Some x -> first_of (element name flt) (descendants n) x.
Proof.
  unfold find, find_all. generalize (descendants n) as l.
  induction l as [|y l IH]; [done|].
  destruct (decide (Is_true (matches name flt y))) as [Hy|Hy].
  - rewrite filter_cons_True by done. simpl. intros [= <-].
    exists [], l. split_and!; [done | constructor | by apply Is_true_matches].
  - rewrite filter_cons_False by done. intros (b & a & -> & Hb & Hx)%IH.
    exists (y :: b), a. split_and!; [done | | done].
    constructor; [by rewrite <- Is_true_matches | done].
Qed.

(** [find] returns [None] exactly when no descendant matches. *)
Lemma find_None name flt n :
  find name flt n = None <-> Forall (fun d => ~ element name flt d) (descendants n).
Proof.
  unfold find, find_all. generalize (descendants n) as l.
  induction l as [|y l IH]; [by split; [constructor|]|].
  destruct (decide (Is_true (matches name flt y))) as [Hy|Hy].
  - rewrite filter_cons_True by done. simpl. split; [done|].
    inversion 1 as [|? ? Hn _]; subst. by apply Is_true_matches in Hy.
  - rewrite filter_cons_False by done. rewrite IH. split.
    + intros H. constructor; [by rewrite <- Is_true_matches | done].
    + by inversion 1.
Qed.

(** Whatever the cell, [get_text(strip=True)] has no surrounding
    whitespace. *)
Lemma get_text_strip_clean n : Str.clean (get_text_strip n).
Proof.
  unfold get_text_strip. apply StrFacts.concat_clean.
  apply Forall_forall. intros s [Hne Hs]%list_elem_of_filter.
  split; [|done]. apply list_elem_of_fmap in Hs as [t [-> _]].
  apply StrFacts.strip_clean.
Qed.


End Bs4Facts.

(** ** The client *)

Section ClientFacts.

Context `{L : Libs}.

Lemma session_request_Return w rq s r :
  send (session (self w)) rq = (s, inr r) ->
  session_request rq w = (Return r, after w s rq).
Proof. intros H. unfold session_request. by rewrite H. Qed.

Lemma session_request_Raise w rq s e :
  send (session (self w)) rq = (s, inl e) ->
  session_request rq w = (Raise (Transport e), after w s rq).
Proof. intros H. unfold session_request. by rewrite H. Qed.

Lemma session_request_wire w rq :
  exists s, (session_request rq w).2 = after w s rq.
Proof.
  unfold session_request. destruct (send _ _) as [s [e|r]]; by exists s.
Qed.

Lemma http_error_ok r : status_ok r <-> http_error r = None.
Proof.
  unfold status_ok, http_error.
  destruct (400 <=? status_code r) eqn:E1, (status_code r <? 500) eqn:E2,
    (500 <=? status_code r) eqn:E3, (status_code r <? 600) eqn:E4;
    simpl; split; try done; lia.
Qed.

Lemma http_error_kind r e : http_error r = Some e -> exc_kind e = HTTPError.
Proof.
  unfold http_error. destruct (_ && _); [by intros [= <-]|].
  destruct (_ && _); [by intros [= <-] | done].
Qed.

Lemma raise_for_status_ok r w :
  status_ok r -> raise_for_status r w = (Return tt, w).
Proof. intros H%http_error_ok. unfold raise_for_status. by rewrite H. Qed.

Lemma raise_for_status_bad r e w :
  http_error r = Some e -> raise_for_status r w = (Raise (Transport e), w).
Proof. intros H. unfold raise_for_status. by rewrite H. Qed.

Lemma raise_for_status_cases r w :
  raise_for_status r w = (Return tt, w) \/
  exists e, raise_for_status r w = (Raise (Transport e), w).
Proof.
  unfold raise_for_status. destruct (http_error r); [right; eauto | by left].
Qed.

Lemma requests_of_after {A} (m : M A) w rqs :
  wire (m w).2 = wire w ++ rqs -> requests_of m w = rqs.
Proof. intros H. unfold requests_of. rewrite H. by rewrite drop_app_length. Qed.

(** The token that [_extract_csrf_token] returns is the [value] of the
    first input named [token]. *)
Lemma _extract_csrf_token_first soup el v w :
  first_of (element "input" [("name", "token")]) (Bs4.descendants soup) el ->
  Bs4.tag_attrs el !! "value" = Some v ->
  _extract_csrf_token soup w = (Return v, w).
Proof.
  intros Hel Hv. unfold _extract_csrf_token.
  by rewrite (Bs4Facts.find_first _ _ _ _ Hel), Hv.
Qed.

Lemma _extract_csrf_token_no_value soup el w :
  first_of (element "input" [("name", "token")]) (Bs4.descendants soup) el ->
  Bs4.tag_attrs el !! "value" = None ->
  _extract_csrf_token soup w =
    (Raise (AuthenticationError "Could not find CSRF token on login page."), w).
Proof.
  intros Hel Hv. unfold _extract_csrf_token.
  by rewrite (Bs4Facts.find_first _ _ _ _ Hel), Hv.
Qed.

Lemma _extract_csrf_token_absent soup w :
  Forall (fun d => ~ element "input" [("name", "token")] d) (Bs4.descendants soup) ->
  _extract_csrf_token soup w =
    (Raise (AuthenticationError "Could not find CSRF token on login page."), w).
Proof.
  intros H%Bs4Facts.find_None. unfold _extract_csrf_token. by rewrite H.
Qed.

(** [authenticate] up to the point where the login page has arrived. *)
Lemma authenticate_body_login_page w s1 r soup :
  send (session (self w)) (login_page_request (self w)) = (s1, inr r) ->
  status_ok r ->
  BeautifulSoup (text r) = inr soup ->
  authenticate_body w =
    bind (_extract_csrf_token soup) (fun token =>
      bind (session_post (base_url (self w) +:+ "index.php")
              (req_data (login_request (self w) token)) 10) (fun response =>
        bind (raise_for_status response) (fun _ =>
          if Str.contains (text response) login_form_marker
          then raise (AuthenticationError "Login failed. Check credentials.")
          else ret true)))
    (after w s1 (login_page_request (self w))).
Proof.
  intros Hsend Hok Hparse. unfold authenticate_body at 1, bind at 1, get_self.
  unfold bind at 1, session_get.
  fold (login_page_request (self w)).
  rewrite (session_request_Return _ _ _ _ Hsend).
  unfold bind at 1. rewrite raise_for_status_ok by done.
  unfold bind at 1, parse_html. by rewrite Hparse.
Qed.

Lemma try_except_world {A} (body : M A) w :
  (try_except_RequestException body connection_error w).2 = (body w).2.
Proof.
  unfold try_except_RequestException. by destruct (body w) as [[a|[]] w'].
Qed.

Lemma try_except_not_transport {A} (body : M A) w e :
  (try_except_RequestException body connection_error w).1 <> Raise (Transport e).
Proof.
  unfold try_except_RequestException. by destruct (body w) as [[a|[]] w'].
Qed.

Lemma try_except_chained {A} (body : M A) w w' e :
  body w = (Raise (Transport e), w') ->
  try_except_RequestException body connection_error w = (Raise (chained e), w').
Proof. intros H. unfold try_except_RequestException. by rewrite H. Qed.

Lemma try_except_other {A} (body : M A) w w' o :
  body w = (o, w') -> (forall e, o <> Raise (Transport e)) ->
  try_except_RequestException body connection_error w = (o, w').
Proof.
  intros H Ho. unfold try_except_RequestException. rewrite H.
  destruct o as [a|[]]; try done. by destruct (Ho e).
Qed.

(** Once the token is in hand, [authenticate] attempts exactly one more
    request, the login POST. *)
Lemma authenticate_wire_with_token w s1 r soup el v :
  send (session (self w)) (login_page_request (self w)) = (s1, inr r) ->
  status_ok r ->
  BeautifulSoup (text r) = inr soup ->
  first_of (element "input" [("name", "token")]) (Bs4.descendants soup) el ->
  Bs4.tag_attrs el !! "value" = Some v ->
  wire (authenticate w).2 =
    wire w ++ [login_page_request (self w); login_request (self w) v].
Proof.
  intros Hsend Hok Hparse Hel Hv. unfold authenticate. rewrite try_except_world.
  rewrite (authenticate_body_login_page _ _ _ _ Hsend Hok Hparse).
  unfold bind at 1. rewrite (_extract_csrf_token_first _ _ _ _ Hel Hv).
  unfold bind at 1, session_post. simpl req_data.
  fold (login_request (self w) v).
  destruct (session_request_wire (after w s1 (login_page_request (self w)))
              (login_request (self w) v)) as [s2 Hw].
  destruct (session_request _ _) as [[r2|e] w2]; simpl in Hw; subst w2.
  - unfold bind.
    destruct (raise_for_status_cases r2 (after (after w s1 (login_page_request (self w))) s2
                                           (login_request (self w) v)))
      as [->|[e ->]]; simpl.
    + destruct (Str.contains _ _); simpl; by rewrite <- app_assoc.
    + by rewrite <- app_assoc.
  - simpl. by rewrite <- app_assoc.
Qed.

(** C1 (as amended).  When the login page arrives, [html.parser] accepts
    it and the first input named [token] in document order carries the
    value [abc123],
    [authenticate] attempts exactly two requests: the GET of the login
    page and then a POST to [index.php] whose form data are
    [pma_username], [pma_password], [server=1] and [token=abc123]. *)
Theorem authenticate_posts_first_token w s1 r soup el :
  send (session (self w)) (login_page_request (self w)) = (s1, inr r) ->
  status_ok r ->
  BeautifulSoup (text r) = inr soup ->
  first_of (element "input" [("name", "token")]) (Bs4.descendants soup) el ->
  Bs4.tag_attrs el !! "value" = Some (PStr "abc123") ->
  exists rq,
    requests_of authenticate w = [login_page_request (self w); rq] /\
    req_method rq = POST /\
    req_url rq = base_url (self w) +:+ "index.php" /\
    req_data rq = [ ("pma_username", PStr (username (self w)));
                    ("pma_password", PStr (password (self w)));
                    ("server", PStr "1");
                    ("token", PStr "abc123") ].
Proof.
  intros Hsend Hok Hparse Hel Hv. exists (login_request (self w) (PStr "abc123")).
  split; [|done]. apply requests_of_after.
  by apply (authenticate_wire_with_token w s1 r soup el).
Qed.

(** C2 (as amended).  When the login page arrives, [html.parser] accepts
    it and it holds no input named [token], [authenticate] raises
    [AuthenticationError] and the GET of the login page is the only
    request it attempts: no POST. *)
Theorem authenticate_without_token_input w s1 r soup :
  send (session (self w)) (login_page_request (self w)) = (s1, inr r) ->
  status_ok r ->
  BeautifulSoup (text r) = inr soup ->
  Forall (fun d => ~ element "input" [("name", "token")] d) (Bs4.descendants soup) ->
  (authenticate w).1 =
    Raise (AuthenticationError "Could not find CSRF token on login page.") /\
  requests_of authenticate w = [login_page_request (self w)] /\
  Forall (fun rq => req_method rq <> POST) (requests_of authenticate w).
Proof.
  intros Hsend Hok Hparse Habs.
  assert (H : authenticate w =
    (Raise (AuthenticationError "Could not find CSRF token on login page."),
     after w s1 (login_page_request (self w)))).
  { unfold authenticate. apply try_except_other; [|done].
    rewrite (authenticate_body_login_page _ _ _ _ Hsend Hok Hparse).
    unfold bind at 1. by rewrite _extract_csrf_token_absent. }
  assert (Hr : requests_of authenticate w = [login_page_request (self w)]).
  { apply requests_of_after. by rewrite H. }
  rewrite Hr, H. split_and!; [done | done |]. by repeat constructor.
Qed.

(** C10 (as amended).  When the login page arrives, [html.parser] accepts
    it and the first input named [token] in document order has no [value]
    attribute,
    [authenticate] raises the same [AuthenticationError] as when there is
    no such input, and attempts no POST. *)
Theorem authenticate_token_without_value w s1 r soup el :
  send (session (self w)) (login_page_request (self w)) = (s1, inr r) ->
  status_ok r ->
  BeautifulSoup (text r) = inr soup ->
  first_of (element "input" [("name", "token")]) (Bs4.descendants soup) el ->
  Bs4.tag_attrs el !! "value" = None ->
  (authenticate w).1 =
    Raise (AuthenticationError "Could not find CSRF token on login page.") /\
  requests_of authenticate w = [login_page_request (self w)] /\
  Forall (fun rq => req_method rq <> POST) (requests_of authenticate w).
Proof.
  intros Hsend Hok Hparse Hel Hv.
  assert (H : authenticate w =
    (Raise (AuthenticationError "Could not find CSRF token on login page."),
     after w s1 (login_page_request (self w)))).
  { unfold authenticate. apply try_except_other; [|done].
    rewrite (authenticate_body_login_page _ _ _ _ Hsend Hok Hparse).
    unfold bind at 1. by rewrite (_extract_csrf_token_no_value _ _ _ Hel Hv). }
  assert (Hr : requests_of authenticate w = [login_page_request (self w)]).
  { apply requests_of_after. by rewrite H. }
  rewrite Hr, H. split_and!; [done | done |]. by repeat constructor.
Qed.

(** Whenever [authenticate] returns, it returns [True]. *)
Lemma authenticate_returns_true w b : (authenticate w).1 = Return b -> b = true.
Proof.
  unfold authenticate, try_except_RequestException.
  destruct (authenticate_body w) as [[b'|e] w'] eqn:E; [|by destruct e].
  simpl. intros [= ->]. revert E.
  unfold authenticate_body, bind, get_self.
  destruct (session_get _ _ _ _) as [[r|e] w1]; [|done].
  destruct (raise_for_status r w1) as [[[]|e] w2]; [|done].
  unfold parse_html. destruct (BeautifulSoup (text r)) as [msg|soup]; [done|].
  unfold ret at 1.
  destruct (_extract_csrf_token _ w2) as [[token|e] w3]; [|done].
  destruct (session_post _ _ _ w3) as [[r2|e] w4]; [|done].
  destruct (raise_for_status r2 w4) as [[[]|e] w5]; [|done].
  destruct (Str.contains _ _); [done|]. by intros [= <- _].
Qed.

(** C3.  When the token was found and both exchanges went through,
    [authenticate] raises [AuthenticationError] if the body of the POST
    response contains [name="login_form"], and returns [True] if it does
    not; and [True] is the only value it ever returns. *)
Theorem authenticate_login_form_marker w s1 r1 soup el token s2 r2 :
  send (session (self w)) (login_page_request (self w)) = (s1, inr r1) ->
  status_ok r1 ->
  BeautifulSoup (text r1) = inr soup ->
  first_of (element "input" [("name", "token")]) (Bs4.descendants soup) el ->
  Bs4.tag_attrs el !! "value" = Some token ->
  send s1 (login_request (self w) token) = (s2, inr r2) ->
  status_ok r2 ->
  ((exists a b, text r2 = a +:+ login_form_marker +:+ b) ->
     (authenticate w).1 = Raise (AuthenticationError "Login failed. Check credentials.")) /\
  (~ (exists a b, text r2 = a +:+ login_form_marker +:+ b) ->
     (authenticate w).1 = Return true) /\
  (forall w' b, (authenticate w').1 = Return b -> b = true).
Proof.
  intros Hget Hok1 Hparse Hel Hv Hpost Hok2.
  cut (((exists a b, text r2 = a +:+ login_form_marker +:+ b) ->
          (authenticate w).1 = Raise (AuthenticationError "Login failed. Check credentials.")) /\
       (~ (exists a b, text r2 = a +:+ login_form_marker +:+ b) ->
          (authenticate w).1 = Return true)).
  { intros [H1 H2]. split_and!; [done | done | apply authenticate_returns_true]. }
  assert (H : authenticate_body w =
    ((if Str.contains (text r2) login_form_marker
      then Raise (AuthenticationError "Login failed. Check credentials.")
      else Return true),
     after (after w s1 (login_page_request (self w))) s2 (login_request (self w) token))).
  { rewrite (authenticate_body_login_page _ _ _ _ Hget Hok1 Hparse).
    unfold bind at 1. rewrite (_extract_csrf_token_first _ _ _ _ Hel Hv).
    unfold bind at 1, session_post. simpl req_data.
    fold (login_request (self w) token).
    rewrite (session_request_Return _ _ s2 r2) by exact Hpost.
    unfold bind. rewrite raise_for_status_ok by done.
    by destruct (Str.contains _ _). }
  unfold authenticate.
  rewrite (try_except_other _ _ _ _ H) by (by destruct (Str.contains _ _)).
  simpl. split.
  - intros Hin%StrFacts.contains_spec. by rewrite Hin.
  - intros Hout. destruct (Str.contains _ _) eqn:E; [|done].
    by apply StrFacts.contains_spec in E.
Qed.

(** *** get_table_data *)

(** [get_table_data] up to the point where the results page has arrived. *)
Lemma get_table_data_body_page d t w s1 r soup :
  send (session (self w)) (table_request (self w) d t) = (s1, inr r) ->
  status_ok r ->
  BeautifulSoup (text r) = inr soup ->
  get_table_data_body d t w =
    match Bs4.find "table" [("class", "table_results")] soup with
    | None => raise (TableDataError (table_not_found_msg d t))
    | Some result_table =>
        bind (_extract_headers result_table) (fun headers =>
          bind (_extract_table_data result_table) (fun table_data =>
            ret (headers, table_data)))
    end (after w s1 (table_request (self w) d t)).
Proof.
  intros Hsend Hok Hparse. unfold get_table_data_body at 1, bind at 1, get_self.
  unfold bind at 1, session_get.
  fold (table_request (self w) d t).
  rewrite (session_request_Return _ _ _ _ Hsend).
  unfold bind at 1. rewrite raise_for_status_ok by done.
  unfold bind at 1, parse_html. by rewrite Hparse.
Qed.

Lemma table_not_found_msg_names d t :
  (exists a b, table_not_found_msg d t = a +:+ d +:+ b) /\
  (exists a b, table_not_found_msg d t = a +:+ t +:+ b).
Proof.
  unfold table_not_found_msg. split.
  - by eexists _, _.
  - exists ("Could not find table data for " +:+ d +:+ "."),
      (". " +:+ "Check database/table names or permissions.").
    by rewrite !StrFacts.app_assoc.
Qed.

(** C5 (as amended).  When the results page arrives, [html.parser]
    accepts it and no element of it has the class [table_results],
    [get_table_data d t] raises [TableDataError] with a message that
    contains both [d] and [t]. *)
Theorem get_table_data_without_results d t w s1 r soup :
  send (session (self w)) (table_request (self w) d t) = (s1, inr r) ->
  status_ok r ->
  BeautifulSoup (text r) = inr soup ->
  Forall (fun n => ~ has_class "table_results" n) (Bs4.descendants soup) ->
  exists msg,
    (get_table_data d t w).1 = Raise (TableDataError msg) /\
    (exists a b, msg = a +:+ d +:+ b) /\
    (exists a b, msg = a +:+ t +:+ b).
Proof.
  intros Hsend Hok Hparse Habs. exists (table_not_found_msg d t).
  split; [|apply table_not_found_msg_names].
  assert (Hnone : Bs4.find "table" [("class", "table_results")] soup = None).
  { apply Bs4Facts.find_None. eapply Forall_impl; [exact Habs|]. simpl.
    intros n Hn He. apply Hn. by exists "table". }
  unfold get_table_data.
  erewrite try_except_other; [done | | done].
  rewrite (get_table_data_body_page _ _ _ _ _ _ Hsend Hok Hparse). by rewrite Hnone.
Qed.





(** X7.  Every cell [get_table_data] returns is free of surrounding
    whitespace, whatever the page. *)
Lemma get_table_data_cells_clean d t w hdrs rows :
  (get_table_data d t w).1 = Return (hdrs, rows) ->
  Forall (Forall Str.clean) rows.
Proof.
  unfold get_table_data, try_except_RequestException.
  destruct (get_table_data_body d t w) as [[[h rs]|e] w'] eqn:E;
    [|by destruct e]. simpl. intros [= -> ->].
  revert E. unfold get_table_data_body, bind, get_self.
  destruct (session_get _ _ _ _) as [[r|e] w1]; [|done].
  destruct (raise_for_status r w1) as [[[]|e] w2]; [|done].
  unfold parse_html. destruct (BeautifulSoup (text r)) as [msg|soup]; [done|].
  unfold ret at 1.
  destruct (Bs4.find "table" _ _) as [T|]; [|done].
  destruct (_extract_headers T w2) as [[hh|e] w3]; [|done].
  unfold _extract_table_data. destruct (Bs4.find "tbody" _ _) as [tbody|]; [|done].
  unfold ret. intros [= _ <- _].
  apply Forall_fmap, Forall_forall. intros tr _. simpl.
  apply Forall_fmap, Forall_forall. intros td _. simpl.
  apply Bs4Facts.get_text_strip_clean.
Qed.

(** Without a [thead], or without a [tbody], below the results table the
    extraction dereferences [None]. *)
Lemma get_table_data_missing_section d t w s1 r soup T :
  send (session (self w)) (table_request (self w) d t) = (s1, inr r) ->
  status_ok r ->
  BeautifulSoup (text r) = inr soup ->
  first_of (element "table" [("class", "table_results")]) (Bs4.descendants soup) T ->
  Forall (fun n => ~ element "thead" [] n) (Bs4.descendants T) \/
  Forall (fun n => ~ element "tbody" [] n) (Bs4.descendants T) ->
  (get_table_data d t w).1 = Raise (AttributeError (none_has_no "find_all")).
Proof.
  intros Hsend Hok Hparse HT Hmiss. unfold get_table_data.
  erewrite try_except_other; [done | | done].
  rewrite (get_table_data_body_page _ _ _ _ _ _ Hsend Hok Hparse).
  rewrite (Bs4Facts.find_first _ _ _ _ HT).
  unfold bind, _extract_headers, _extract_table_data.
  destruct (Bs4.find "thead" [] T) as [thead|] eqn:Eh; [|done].
  destruct Hmiss as [Hh%Bs4Facts.find_None | Hb%Bs4Facts.find_None]; [congruence|].
  by rewrite Hb.
Qed.

(** *** Transport failures *)

Lemma observed_never_raw k w e : observed k w <> Some (Transport e).
Proof.
  destruct k as [|d t|]; simpl; [| |done].
  - unfold authenticate.
    generalize (try_except_not_transport authenticate_body w e).
    destruct (try_except_RequestException _ _ _).1 as [a|e0]; simpl; [done|].
    intros H [= ->]. by apply H.
  - unfold get_table_data.
    generalize (try_except_not_transport (get_table_data_body d t) w e).
    destruct (try_except_RequestException _ _ _).1 as [a|e0]; simpl; [done|].
    intros H [= ->]. by apply H.
Qed.

(** C6.  A transport failure in any exchange of [authenticate] or of
    [get_table_data] reaches the caller as a [ConnectionError] whose cause
    is that failure; and no call ever lets the transport's own exception
    through. *)
Theorem transport_failure_surfaces k w e :
  transport_failure k w e ->
  observed k w = Some (ConnectionError ("Connection error: " +:+ exc_str e) e) /\
  (forall k' w' e', observed k' w' <> Some (Transport e')).
Proof.
  intros Hfail. split; [|intros; apply observed_never_raw].
  destruct Hfail as [w s e Hget | w s r e Hget Hbad
                    | w s1 r1 soup el token s2 e Hget Hok Hparse Hel Hv Hpost
                    | w s1 r1 soup el token s2 r2 e Hget Hok Hparse Hel Hv Hpost Hbad
                    | d t w s e Hget | d t w s r e Hget Hbad]; simpl.
  - unfold authenticate. erewrite try_except_chained; [done|].
    unfold authenticate_body, bind, get_self, session_get.
    fold (login_page_request (self w)).
    by rewrite (session_request_Raise _ _ _ _ Hget).
  - unfold authenticate. erewrite try_except_chained; [done|].
    unfold authenticate_body, bind, get_self, session_get.
    fold (login_page_request (self w)).
    rewrite (session_request_Return _ _ _ _ Hget).
    by rewrite (raise_for_status_bad _ _ _ Hbad).
  - unfold authenticate. erewrite try_except_chained; [done|].
    rewrite (authenticate_body_login_page _ _ _ _ Hget Hok Hparse).
    unfold bind at 1. rewrite (_extract_csrf_token_first _ _ _ _ Hel Hv).
    unfold bind at 1, session_post. simpl req_data.
    fold (login_request (self w) token).
    by rewrite (session_request_Raise _ _ s2 e) by exact Hpost.
  - unfold authenticate. erewrite try_except_chained; [done|].
    rewrite (authenticate_body_login_page _ _ _ _ Hget Hok Hparse).
    unfold bind at 1. rewrite (_extract_csrf_token_first _ _ _ _ Hel Hv).
    unfold bind at 1, session_post. simpl req_data.
    fold (login_request (self w) token).
    rewrite (session_request_Return _ _ s2 r2) by exact Hpost.
    unfold bind. by rewrite (raise_for_status_bad _ _ _ Hbad).
  - unfold get_table_data. erewrite try_except_chained; [done|].
    unfold get_table_data_body, bind, get_self, session_get.
    fold (table_request (self w) d t).
    by rewrite (session_request_Raise _ _ _ _ Hget).
  - unfold get_table_data. erewrite try_except_chained; [done|].
    unfold get_table_data_body, bind, get_self, session_get.
    fold (table_request (self w) d t).
    rewrite (session_request_Return _ _ _ _ Hget).
    by rewrite (raise_for_status_bad _ _ _ Hbad).
Qed.

(** *** The credentials are a frame *)

Lemma frames_ret {A} (a : A) : frames (ret a).
Proof. done. Qed.

Lemma frames_raise {A} e : frames (@raise L A e).
Proof. done. Qed.

Lemma frames_get_self : frames get_self.
Proof. done. Qed.

Lemma frames_bind {A B} (m : M A) (k : A -> M B) :
  frames m -> (forall a, frames (k a)) -> frames (bind m k).
Proof.
  intros Hm Hk w. unfold bind. specialize (Hm w).
  destruct (m w) as [[a|e] w1]; simpl in *; [|done].
  by rewrite (Hk a w1).
Qed.

Lemma frames_try {A} (body : M A) (handler : RequestException -> M A) :
  frames body -> (forall e, frames (handler e)) ->
  frames (try_except_RequestException body handler).
Proof.
  intros Hb Hh w. unfold try_except_RequestException. specialize (Hb w).
  destruct (body w) as [[a|e] w1]; simpl in *; [done|].
  destruct e; simpl; try done. by rewrite (Hh e w1).
Qed.

Lemma frames_session_request rq : frames (session_request rq).
Proof.
  intros w. unfold session_request.
  by destruct (send _ _) as [s [e|r]].
Qed.

Lemma frames_raise_for_status r : frames (raise_for_status r).
Proof. intros w. unfold raise_for_status. by destruct (http_error r). Qed.

Ltac frame_step :=
  first
    [ apply frames_ret | apply frames_raise | apply frames_get_self
    | apply frames_session_request | apply frames_raise_for_status
    | apply frames_try; [|intros ?]
    | apply frames_bind; [|intros ?]
    | match goal with
      | |- frames (match ?x with _ => _ end) => destruct x
      end ].

Lemma frames_authenticate : frames authenticate.
Proof.
  unfold authenticate, authenticate_body, connection_error, session_get,
    session_post, _extract_csrf_token, parse_html.
  repeat frame_step.
Qed.

Lemma frames_get_table_data d t : frames (get_table_data d t).
Proof.
  unfold get_table_data, get_table_data_body, connection_error, session_get,
    _extract_headers, _extract_table_data, parse_html.
  repeat frame_step.
Qed.

Lemma frames_run_call k w : credentials (self (run_call k w)) = credentials (self w).
Proof.
  destruct k as [|d t|]; simpl;
    [apply frames_authenticate | apply frames_get_table_data | done].
Qed.

Lemma frames_run_calls ks w : credentials (self (run_calls ks w)) = credentials (self w).
Proof.
  revert w. induction ks as [|k ks IH]; intros w; [done|].
  simpl. by rewrite IH, frames_run_call.
Qed.

Lemma __init___base_url b u p : Str.endswith (base_url (__init__ b u p)) "/" = true.
Proof.
  unfold __init__; simpl. destruct (Str.endswith b "/") eqn:E; simpl; [done|].
  apply StrFacts.endswith_spec. by exists b.
Qed.

(** C8.  No call changes [base_url], [username] or [password], whatever
    its outcome: of the fields of the object only [session] is ever
    replaced.  The constructor stores the user name and password as given
    and a base URL that ends with [/], and so it stays after any sequence
    of calls. *)
Theorem credentials_unchanged :
  (forall k w,
     base_url (self (run_call k w)) = base_url (self w) /\
     username (self (run_call k w)) = username (self w) /\
     password (self (run_call k w)) = password (self w)) /\
  (forall b u p,
     Str.endswith (base_url (__init__ b u p)) "/" = true /\
     base_url (__init__ b u p) = (if Str.endswith b "/" then b else b +:+ "/") /\
     username (__init__ b u p) = u /\ password (__init__ b u p) = p) /\
  (forall b u p tr ks,
     let c := self (run_calls ks {| self := __init__ b u p; wire := tr |}) in
     Str.endswith (base_url c) "/" = true /\
     base_url c = base_url (__init__ b u p) /\ username c = u /\ password c = p).
Proof.
  split_and!.
  - intros k w. pose proof (frames_run_call k w) as H.
    unfold credentials in H. by injection H as -> -> ->.
  - intros b u p. split_and!; [apply __init___base_url | | done | done].
    unfold __init__; simpl. by destruct (Str.endswith b "/").
  - intros b u p tr ks c.
    pose proof (frames_run_calls ks {| self := __init__ b u p; wire := tr |}) as H.
    unfold credentials in H. injection H as Hb Hu Hp. subst c.
    rewrite Hb, Hu, Hp. split_and!; try done.
    apply (__init___base_url b u p).
Qed.

End ClientFacts.

(** ** The fixtures, run *)

Module Runs.
Import Fixtures.

Ltac first_here := apply Bs4Facts.find_Some_first; vm_compute; reflexivity.
Ltac none_here := apply Bs4Facts.find_None; vm_compute; reflexivity.
Ltac element_here := apply Bs4Facts.matches_element; vm_compute; reflexivity.
Ltac status_here := left; vm_compute; reflexivity.
Ltac parse_here := vm_compute; reflexivity.

(** The login page with one token input: the GET, then the POST with
    [token=abc123]. *)
Lemma authenticate_posts_first_token_witness :
  exists rq,
    requests_of authenticate (fresh logging_in) =
      [login_page_request (self (fresh logging_in)); rq] /\
    req_method rq = POST /\
    req_url rq = "http://localhost/phpmyadmin/" +:+ "index.php" /\
    req_data rq = [ ("pma_username", PStr "test"); ("pma_password", PStr "secret");
                    ("server", PStr "1"); ("token", PStr "abc123") ].
Proof.
  eapply (authenticate_posts_first_token (L := logging_in) (fresh logging_in)).
  - reflexivity.
  - status_here.
  - parse_here.
  - first_here.
  - vm_compute. reflexivity.
Defined.

(** With two inputs named [token], the first one's value is posted, not
    the second's, although the second carries [abc123]. *)
Lemma second_token_input_is_not_posted :
  (exists s1 r soup el,
     send (session (self (fresh two_tokens)))
          (login_page_request (self (fresh two_tokens))) = (s1, inr r) /\
     status_ok r /\
     @BeautifulSoup two_tokens (text r) = inr soup /\
     el ∈ Bs4.descendants soup /\
     element "input" [("name", "token")] el /\
     Bs4.tag_attrs el !! "value" = Some (PStr "abc123")) /\
  requests_of authenticate (fresh two_tokens) =
    [ login_page_request (self (fresh two_tokens));
      login_request (self (fresh two_tokens)) (PStr "zzz") ] /\
  ~ (exists rq, rq ∈ requests_of authenticate (fresh two_tokens) /\
                ("token", PStr "abc123") ∈ req_data rq).
Proof.
  split_and!.
  - eexists _, _, _, _. split_and!.
    + reflexivity.
    + status_here.
    + parse_here.
    + apply (list_elem_of_lookup_2 _ 3). vm_compute. reflexivity.
    + element_here.
    + vm_compute. reflexivity.
  - vm_compute. reflexivity.
  - intros (rq & Hin & Htok).
    assert (Hrq : requests_of authenticate (fresh two_tokens) =
              [ login_page_request (self (fresh two_tokens));
                login_request (self (fresh two_tokens)) (PStr "zzz") ])
      by (vm_compute; reflexivity).
    rewrite Hrq in Hin. apply list_elem_of_In in Hin.
    destruct Hin as [<-|[<-|[]]]; apply list_elem_of_In in Htok;
      simpl in Htok; intuition congruence.
Qed.

(** The login page with no token input. *)
Lemma authenticate_without_token_input_witness :
  (authenticate (fresh no_token)).1 =
    Raise (AuthenticationError "Could not find CSRF token on login page.") /\
  requests_of authenticate (fresh no_token) =
    [login_page_request (self (fresh no_token))] /\
  Forall (fun rq => req_method rq <> POST) (requests_of authenticate (fresh no_token)).
Proof.
  eapply (authenticate_without_token_input (L := no_token) (fresh no_token)).
  - reflexivity.
  - status_here.
  - parse_here.
  - apply Bs4Facts.find_None. vm_compute. reflexivity.
Defined.

(** The login page whose only token input has no value. *)
Lemma authenticate_token_without_value_witness :
  (authenticate (fresh bare_token)).1 =
    Raise (AuthenticationError "Could not find CSRF token on login page.") /\
  requests_of authenticate (fresh bare_token) =
    [login_page_request (self (fresh bare_token))] /\
  Forall (fun rq => req_method rq <> POST) (requests_of authenticate (fresh bare_token)).
Proof.
  eapply (authenticate_token_without_value (L := bare_token) (fresh bare_token)).
  - reflexivity.
  - status_here.
  - parse_here.
  - first_here.
  - vm_compute. reflexivity.
Defined.

(** With a first input named [token] that has a value and a second one
    that has none, the login goes ahead. *)
Lemma later_token_without_value_is_ignored :
  (exists s1 r soup el,
     send (session (self (fresh token_then_bare)))
          (login_page_request (self (fresh token_then_bare))) = (s1, inr r) /\
     status_ok r /\
     @BeautifulSoup token_then_bare (text r) = inr soup /\
     el ∈ Bs4.descendants soup /\
     element "input" [("name", "token")] el /\
     Bs4.tag_attrs el !! "value" = None) /\
  (authenticate (fresh token_then_bare)).1 = Return true /\
  requests_of authenticate (fresh token_then_bare) =
    [ login_page_request (self (fresh token_then_bare));
      login_request (self (fresh token_then_bare)) (PStr "t1") ].
Proof.
  split_and!.
  - eexists _, _, _, _. split_and!.
    + reflexivity.
    + status_here.
    + parse_here.
    + apply (list_elem_of_lookup_2 _ 3). vm_compute. reflexivity.
    + element_here.
    + vm_compute. reflexivity.
  - vm_compute. reflexivity.
  - vm_compute. reflexivity.
Qed.

(** The login form comes back after the POST, or the landing page does. *)
Lemma authenticate_login_form_marker_witness :
  (authenticate (fresh turned_away)).1 =
    Raise (AuthenticationError "Login failed. Check credentials.") /\
  (authenticate (fresh logging_in)).1 = Return true.
Proof.
  split.
  - edestruct (authenticate_login_form_marker (L := turned_away) (fresh turned_away))
      as (Hin & _ & _);
      [ reflexivity | status_here | parse_here | first_here | vm_compute; reflexivity
      | reflexivity | status_here | ].
    apply Hin. by exists "<form ", "></form>".
  - edestruct (authenticate_login_form_marker (L := logging_in) (fresh logging_in))
      as (_ & Hout & _);
      [ reflexivity | status_here | parse_here | first_here | vm_compute; reflexivity
      | reflexivity | status_here | ].
    apply Hout. intros Hin%StrFacts.contains_spec. vm_compute in Hin. discriminate.
Defined.




(** The error page phpMyAdmin shows for a table that does not exist. *)
Lemma get_table_data_without_results_witness :
  exists msg,
    (get_table_data "testDB" "users" (fresh without_results)).1 =
      Raise (TableDataError msg) /\
    (exists a b, msg = a +:+ "testDB" +:+ b) /\
    (exists a b, msg = a +:+ "users" +:+ b).
Proof.
  eapply (get_table_data_without_results (L := without_results) "testDB" "users"
            (fresh without_results)).
  - reflexivity.
  - status_here.
  - parse_here.
  - apply Forall_forall. intros n Hn (v & Hv & Hhas)%Bs4Facts.has_class_attr.
    apply Bs4Facts.attr_matches_has in Hhas.
    apply list_elem_of_In in Hn. vm_compute in Hn.
    destruct Hn as [<-|[<-|[]]]; vm_compute in Hv; [|discriminate].
    injection Hv as <-. vm_compute in Hhas. discriminate.
Defined.

(** Nobody listens: both calls end in [ConnectionError]. *)
Lemma transport_failure_surfaces_witness :
  observed CallAuthenticate (fresh refusing) =
    Some (ConnectionError "Connection error: Connection refused"
            {| exc_kind := ConnectionRefused; exc_str := "Connection refused" |}) /\
  observed (CallGetTableData "testDB" "users") (fresh refusing) =
    Some (ConnectionError "Connection error: Connection refused"
            {| exc_kind := ConnectionRefused; exc_str := "Connection refused" |}).
Proof.
  split.
  - eapply (proj1 (transport_failure_surfaces (L := refusing) _ _ _
                     (login_page_unreachable (fresh refusing) 1%nat _ eq_refl))).
  - eapply (proj1 (transport_failure_surfaces (L := refusing) _ _ _
                     (table_page_unreachable "testDB" "users" (fresh refusing) 1%nat _ eq_refl))).
Defined.

(** A login page that carries the token input and that [html.parser]
    rejects: the parser's exception leaves [authenticate] after the GET,
    and nothing is posted. *)
Lemma malformed_login_page_is_not_posted :
  Str.contains malformed_login_markup "<input name='token' value='abc123'>" = true /\
  (exists s1 r,
     send (session (self (fresh malformed_login)))
          (login_page_request (self (fresh malformed_login))) = (s1, inr r) /\
     status_ok r /\ text r = malformed_login_markup /\
     @BeautifulSoup malformed_login (text r) = inl rejection) /\
  (authenticate (fresh malformed_login)).1 = Raise (ParserRejectedMarkup rejection) /\
  requests_of authenticate (fresh malformed_login) =
    [login_page_request (self (fresh malformed_login))].
Proof.
  split_and!; [vm_compute; reflexivity | | vm_compute; reflexivity | vm_compute; reflexivity].
  eexists _, _. split_and!; [reflexivity | status_here | reflexivity | parse_here].
Qed.

(** The value [abc123] of a token input is not posted when another token
    input comes first, nor when the parser rejects the page. *)
Lemma token_abc123_is_not_always_posted :
  ((exists s1 r soup el,
      send (session (self (fresh two_tokens)))
           (login_page_request (self (fresh two_tokens))) = (s1, inr r) /\
      status_ok r /\
      @BeautifulSoup two_tokens (text r) = inr soup /\
      el ∈ Bs4.descendants soup /\
      element "input" [("name", "token")] el /\
      Bs4.tag_attrs el !! "value" = Some (PStr "abc123")) /\
   requests_of authenticate (fresh two_tokens) =
     [ login_page_request (self (fresh two_tokens));
       login_request (self (fresh two_tokens)) (PStr "zzz") ] /\
   ~ (exists rq, rq ∈ requests_of authenticate (fresh two_tokens) /\
                 ("token", PStr "abc123") ∈ req_data rq)) /\
  (Str.contains malformed_login_markup "<input name='token' value='abc123'>" = true /\
   (exists s1 r,
      send (session (self (fresh malformed_login)))
           (login_page_request (self (fresh malformed_login))) = (s1, inr r) /\
      status_ok r /\ text r = malformed_login_markup /\
      @BeautifulSoup malformed_login (text r) = inl rejection) /\
   (authenticate (fresh malformed_login)).1 = Raise (ParserRejectedMarkup rejection) /\
   requests_of authenticate (fresh malformed_login) =
     [login_page_request (self (fresh malformed_login))]).
Proof.
  split; [exact second_token_input_is_not_posted | exact malformed_login_page_is_not_posted].
Qed.

(** A login page without any input that [html.parser] rejects:
    [authenticate] does not raise [AuthenticationError] but lets the
    parser's exception through. *)
Lemma malformed_page_without_token_input :
  Str.contains malformed_no_token_markup "<input" = false /\
  (exists s1 r,
     send (session (self (fresh malformed_no_token)))
          (login_page_request (self (fresh malformed_no_token))) = (s1, inr r) /\
     status_ok r /\ text r = malformed_no_token_markup /\
     @BeautifulSoup malformed_no_token (text r) = inl rejection) /\
  (authenticate (fresh malformed_no_token)).1 = Raise (ParserRejectedMarkup rejection) /\
  (forall msg, (authenticate (fresh malformed_no_token)).1 <>
               Raise (AuthenticationError msg)) /\
  requests_of authenticate (fresh malformed_no_token) =
    [login_page_request (self (fresh malformed_no_token))].
Proof.
  assert (H : (authenticate (fresh malformed_no_token)).1 =
              Raise (ParserRejectedMarkup rejection)) by (vm_compute; reflexivity).
  split_and!; [vm_compute; reflexivity | | exact H | | vm_compute; reflexivity].
  - eexists _, _. split_and!; [reflexivity | status_here | reflexivity | parse_here].
  - intros msg. rewrite H. discriminate.
Qed.

(** A login page whose token input has no value and that [html.parser]
    rejects: the failure is the parser's, not [AuthenticationError]. *)
Lemma malformed_page_with_bare_token :
  Str.contains malformed_bare_token_markup "<input name='token'>" = true /\
  (exists s1 r,
     send (session (self (fresh malformed_bare_token)))
          (login_page_request (self (fresh malformed_bare_token))) = (s1, inr r) /\
     status_ok r /\ text r = malformed_bare_token_markup /\
     @BeautifulSoup malformed_bare_token (text r) = inl rejection) /\
  (authenticate (fresh malformed_bare_token)).1 = Raise (ParserRejectedMarkup rejection) /\
  (forall msg, (authenticate (fresh malformed_bare_token)).1 <>
               Raise (AuthenticationError msg)).
Proof.
  assert (H : (authenticate (fresh malformed_bare_token)).1 =
              Raise (ParserRejectedMarkup rejection)) by (vm_compute; reflexivity).
  split_and!; [vm_compute; reflexivity | | exact H |].
  - eexists _, _. split_and!; [reflexivity | status_here | reflexivity | parse_here].
  - intros msg. rewrite H. discriminate.
Qed.

(** A token input without a value does not make [authenticate] fail with
    [AuthenticationError] when a token input with a value comes first, nor
    when the parser rejects the page. *)
Lemma token_without_value_does_not_always_fail :
  ((exists s1 r soup el,
      send (session (self (fresh token_then_bare)))
           (login_page_request (self (fresh token_then_bare))) = (s1, inr r) /\
      status_ok r /\
      @BeautifulSoup token_then_bare (text r) = inr soup /\
      el ∈ Bs4.descendants soup /\
      element "input" [("name", "token")] el /\
      Bs4.tag_attrs el !! "value" = None) /\
   (authenticate (fresh token_then_bare)).1 = Return true /\
   requests_of authenticate (fresh token_then_bare) =
     [ login_page_request (self (fresh token_then_bare));
       login_request (self (fresh token_then_bare)) (PStr "t1") ]) /\
  (Str.contains malformed_bare_token_markup "<input name='token'>" = true /\
   (exists s1 r,
      send (session (self (fresh malformed_bare_token)))
           (login_page_request (self (fresh malformed_bare_token))) = (s1, inr r) /\
      status_ok r /\ text r = malformed_bare_token_markup /\
      @BeautifulSoup malformed_bare_token (text r) = inl rejection) /\
   (authenticate (fresh malformed_bare_token)).1 = Raise (ParserRejectedMarkup rejection) /\
   (forall msg, (authenticate (fresh malformed_bare_token)).1 <>
                Raise (AuthenticationError msg))).
Proof.
  split; [exact later_token_without_value_is_ignored | exact malformed_page_with_bare_token].
Qed.



(** A results page without the class [table_results] that [html.parser]
    rejects: [get_table_data] does not raise [TableDataError] but lets the
    parser's exception through. *)
Lemma malformed_page_without_results :
  Str.contains malformed_no_results_markup "table_results" = false /\
  (exists s1 r,
     send (session (self (fresh malformed_no_results)))
          (table_request (self (fresh malformed_no_results)) "testDB" "users") = (s1, inr r) /\
     status_ok r /\ text r = malformed_no_results_markup /\
     @BeautifulSoup malformed_no_results (text r) = inl rejection) /\
  (get_table_data "testDB" "users" (fresh malformed_no_results)).1 =
    Raise (ParserRejectedMarkup rejection) /\
  (forall msg, (get_table_data "testDB" "users" (fresh malformed_no_results)).1 <>
               Raise (TableDataError msg)).
Proof.
  assert (H : (get_table_data "testDB" "users" (fresh malformed_no_results)).1 =
              Raise (ParserRejectedMarkup rejection)) by (vm_compute; reflexivity).
  split_and!; [vm_compute; reflexivity | | exact H |].
  - eexists _, _. split_and!; [reflexivity | status_here | reflexivity | parse_here].
  - intros msg. rewrite H. discriminate.
Qed.

(** C7.  There is a results page with an element of class [table_results]
    and no [thead], and one with a [thead] and no [tbody], on which
    [get_table_data] neither returns nor raises one of the three declared
    kinds: the [AttributeError] of the extraction helper reaches the
    caller. *)
Theorem get_table_data_generic_fault :
  (exists (L : Libs) (w : World) (d t : string) (page : node),
     served d t w page /\
     (exists T, T ∈ Bs4.descendants page /\ has_class "table_results" T) /\
     Forall (fun n => ~ element "thead" [] n) (Bs4.descendants page) /\
     exists e, (get_table_data d t w).1 = Raise e /\ ~ domain_kind e /\
               e = AttributeError "'NoneType' object has no attribute 'find_all'") /\
  (exists (L : Libs) (w : World) (d t : string) (page : node),
     served d t w page /\
     (exists T, T ∈ Bs4.descendants page /\ has_class "table_results" T) /\
     Forall (fun n => ~ element "tbody" [] n) (Bs4.descendants page) /\
     exists e, (get_table_data d t w).1 = Raise e /\ ~ domain_kind e /\
               e = AttributeError "'NoneType' object has no attribute 'find_all'").
Proof.
  split.
  - exists without_thead, (fresh without_thead), "testDB", "users", no_thead_page.
    assert (Hserved : served "testDB" "users" (fresh without_thead) no_thead_page).
    { eexists _, _. split_and!; [reflexivity | status_here | vm_compute; reflexivity]. }
    split_and!.
    + exact Hserved.
    + eexists. split; [apply (list_elem_of_lookup_2 _ 0); vm_compute; reflexivity|].
      exists "table". element_here.
    + none_here.
    + destruct Hserved as (s1 & r & Hsend & Hok & Hpage).
      exists (AttributeError (none_has_no "find_all")).
      split_and!; [|simpl; tauto|reflexivity].
      apply (get_table_data_missing_section _ _ _ _ _ _
               (Tag "table" {[ "class" := PList ["table_results"] ]}
                  [ Tag "tbody" ∅ [ Tag "tr" ∅ [ data (txt "1") ] ] ]) Hsend Hok Hpage).
      * first_here.
      * left. none_here.
  - exists without_tbody, (fresh without_tbody), "testDB", "users", no_tbody_page.
    assert (Hserved : served "testDB" "users" (fresh without_tbody) no_tbody_page).
    { eexists _, _. split_and!; [reflexivity | status_here | vm_compute; reflexivity]. }
    split_and!.
    + exact Hserved.
    + eexists. split; [apply (list_elem_of_lookup_2 _ 0); vm_compute; reflexivity|].
      exists "table". element_here.
    + none_here.
    + destruct Hserved as (s1 & r & Hsend & Hok & Hpage).
      exists (AttributeError (none_has_no "find_all")).
      split_and!; [|simpl; tauto|reflexivity].
      apply (get_table_data_missing_section _ _ _ _ _ _
               (Tag "table" {[ "class" := PList ["table_results"] ]}
                  [ Tag "thead" ∅ [ Tag "tr" ∅ [ heading "id" ] ] ]) Hsend Hok Hpage).
      * first_here.
      * right. none_here.
Qed.

(** C9.  There is a results page with the [table_results] marker for which
    [get_table_data] returns, without error, rows that differ in length
    from the header list and from each other. *)
Theorem get_table_data_ragged_rows :
  exists (L : Libs) (w : World) (d t : string) (page : node) hdrs rows,
    served d t w page /\
    (exists T, T ∈ Bs4.descendants page /\ has_class "table_results" T) /\
    (get_table_data d t w).1 = Return (hdrs, rows) /\
    (exists row, row ∈ rows /\ length row <> length hdrs) /\
    (exists row1 row2, row1 ∈ rows /\ row2 ∈ rows /\ length row1 <> length row2).
Proof.
  exists ragged, (fresh ragged), "testDB", "users", ragged_page,
    [PStr "id"; PStr "name"], [[txt "1"]; [txt "2"; txt "bob"; txt "x"]].
  split_and!.
  - eexists _, _. split_and!; [reflexivity | status_here | vm_compute; reflexivity].
  - eexists. split; [apply (list_elem_of_lookup_2 _ 0); vm_compute; reflexivity|].
    exists "table". element_here.
  - vm_compute. reflexivity.
  - exists [txt "1"]. split; [set_solver | simpl; lia].
  - exists [txt "1"], [txt "2"; txt "bob"; txt "x"].
    split_and!; [set_solver | set_solver | simpl; lia].
Qed.

End Runs.

(** ** Every path of the two methods *)

Section Paths.

Context `{L : Libs}.

Lemma authenticate_unreachable w s e :
  send (session (self w)) (login_page_request (self w)) = (s, inl e) ->
  authenticate w = (Raise (chained e), after w s (login_page_request (self w))).
Proof.
  intros Hget. unfold authenticate. apply try_except_chained.
  unfold authenticate_body, bind, get_self, session_get.
  fold (login_page_request (self w)).
  by rewrite (session_request_Raise _ _ _ _ Hget).
Qed.

Lemma authenticate_bad_status w s r e :
  send (session (self w)) (login_page_request (self w)) = (s, inr r) ->
  http_error r = Some e ->
  authenticate w = (Raise (chained e), after w s (login_page_request (self w))).
Proof.
  intros Hget Hbad. unfold authenticate. apply try_except_chained.
  unfold authenticate_body, bind, get_self, session_get.
  fold (login_page_request (self w)).
  rewrite (session_request_Return _ _ _ _ Hget).
  by rewrite (raise_for_status_bad _ _ _ Hbad).
Qed.

(** The parser rejects the login page: its exception is not a
    [RequestException] and leaves [authenticate] as it is. *)
Lemma authenticate_rejected w s r msg :
  send (session (self w)) (login_page_request (self w)) = (s, inr r) ->
  status_ok r ->
  BeautifulSoup (text r) = inl msg ->
  authenticate w =
    (Raise (ParserRejectedMarkup msg), after w s (login_page_request (self w))).
Proof.
  intros Hget Hok Hparse. unfold authenticate. apply try_except_other; [|done].
  unfold authenticate_body, bind, get_self, session_get.
  fold (login_page_request (self w)).
  rewrite (session_request_Return _ _ _ _ Hget).
  rewrite raise_for_status_ok by done.
  unfold parse_html. by rewrite Hparse.
Qed.

Lemma authenticate_no_token w s r soup :
  send (session (self w)) (login_page_request (self w)) = (s, inr r) ->
  status_ok r ->
  BeautifulSoup (text r) = inr soup ->
  (forall v, _extract_csrf_token soup (after w s (login_page_request (self w))) <>
             (Return v, after w s (login_page_request (self w)))) ->
  authenticate w =
    (Raise (AuthenticationError "Could not find CSRF token on login page."),
     after w s (login_page_request (self w))).
Proof.
  intros Hget Hok Hparse Hno. unfold authenticate. apply try_except_other; [|done].
  rewrite (authenticate_body_login_page _ _ _ _ Hget Hok Hparse). unfold bind at 1.
  revert Hno. unfold _extract_csrf_token.
  destruct (Bs4.find _ _ _) as [el|]; [|done].
  destruct (Bs4.tag_attrs el !! "value") as [v|]; [|done].
  intros Hno. by destruct (Hno v).
Qed.

Lemma authenticate_with_token w s1 r soup el v s2 out :
  send (session (self w)) (login_page_request (self w)) = (s1, inr r) ->
  status_ok r ->
  BeautifulSoup (text r) = inr soup ->
  first_of (element "input" [("name", "token")]) (Bs4.descendants soup) el ->
  Bs4.tag_attrs el !! "value" = Some v ->
  send s1 (login_request (self w) v) = (s2, out) ->
  authenticate w =
    (login_verdict out,
     after (after w s1 (login_page_request (self w))) s2 (login_request (self w) v)).
Proof.
  intros Hget Hok Hparse Hel Hv Hpost.
  assert (Hbody : authenticate_body w =
    (match out with
     | inl e => Raise (Transport e)
     | inr r2 =>
         match http_error r2 with
         | Some e => Raise (Transport e)
         | None =>
             if Str.contains (text r2) login_form_marker
             then Raise (AuthenticationError "Login failed. Check credentials.")
             else Return true
         end
     end,
     after (after w s1 (login_page_request (self w))) s2 (login_request (self w) v))).
  { rewrite (authenticate_body_login_page _ _ _ _ Hget Hok Hparse).
    unfold bind at 1. rewrite (_extract_csrf_token_first _ _ _ _ Hel Hv).
    unfold bind at 1, session_post. simpl req_data.
    fold (login_request (self w) v).
    destruct out as [e|r2].
    - by rewrite (session_request_Raise _ _ s2 e) by exact Hpost.
    - rewrite (session_request_Return _ _ s2 r2) by exact Hpost.
      unfold bind, raise_for_status. destruct (http_error r2); [done|].
      by destruct (Str.contains _ _). }
  unfold authenticate, try_except_RequestException. rewrite Hbody.
  destruct out as [e|r2]; [done|]. simpl.
  destruct (http_error r2); [done|]. by destruct (Str.contains _ _).
Qed.

(** The first input named [token], if the page has one. *)
Lemma token_input_cases soup w :
  (exists el v, first_of (element "input" [("name", "token")]) (Bs4.descendants soup) el /\
                Bs4.tag_attrs el !! "value" = Some v) \/
  (forall v, _extract_csrf_token soup w <> (Return v, w)).
Proof.
  unfold _extract_csrf_token.
  destruct (Bs4.find _ _ _) as [el|] eqn:E; [|by right].
  destruct (Bs4.tag_attrs el !! "value") as [v|] eqn:Ev; [|by right].
  left. exists el, v. split; [|done]. by apply Bs4Facts.find_Some_first.
Qed.

Lemma authenticate_takes_a_path w :
  authenticate_path w (authenticate w).1 (requests_of authenticate w).
Proof.
  destruct (send (session (self w)) (login_page_request (self w))) as [s1 [e|r]] eqn:Hget.
  - rewrite (requests_of_after authenticate w [login_page_request (self w)])
      by (by rewrite (authenticate_unreachable _ _ _ Hget)).
    rewrite (authenticate_unreachable _ _ _ Hget). by eapply path_unreachable.
  - destruct (http_error r) as [e|] eqn:Hst.
    { rewrite (requests_of_after authenticate w [login_page_request (self w)])
        by (by rewrite (authenticate_bad_status _ _ _ _ Hget Hst)).
      rewrite (authenticate_bad_status _ _ _ _ Hget Hst). by eapply path_bad_status. }
    apply http_error_ok in Hst.
    destruct (BeautifulSoup (text r)) as [msg|soup] eqn:Hparse.
    { rewrite (requests_of_after authenticate w [login_page_request (self w)])
        by (by rewrite (authenticate_rejected _ _ _ _ Hget Hst Hparse)).
      rewrite (authenticate_rejected _ _ _ _ Hget Hst Hparse). by eapply path_rejected. }
    destruct (token_input_cases soup (after w s1 (login_page_request (self w))))
      as [(el & v & Hel & Hv)|Hno].
    + destruct (send s1 (login_request (self w) v)) as [s2 out] eqn:Hpost.
      rewrite (requests_of_after authenticate w
                 [login_page_request (self w); login_request (self w) v])
        by (by apply (authenticate_wire_with_token w s1 r soup el)).
      rewrite (authenticate_with_token _ _ _ _ _ _ _ _ Hget Hst Hparse Hel Hv Hpost).
      by eapply path_posted.
    + rewrite (requests_of_after authenticate w [login_page_request (self w)])
        by (by rewrite (authenticate_no_token _ _ _ _ Hget Hst Hparse Hno)).
      rewrite (authenticate_no_token _ _ _ _ Hget Hst Hparse Hno).
      by eapply path_no_token.
Qed.

(** X1.  Whatever happens, [authenticate] attempts the GET of the login
    page and nothing else, or that GET followed by the one login POST,
    whose token is the value of the first input named [token] of the page
    the GET brought: the user name and password leave in no other
    request. *)
Theorem authenticate_requests w :
  requests_of authenticate w = [login_page_request (self w)] \/
  exists s1 r soup el token,
    send (session (self w)) (login_page_request (self w)) = (s1, inr r) /\
    status_ok r /\
    BeautifulSoup (text r) = inr soup /\
    first_of (element "input" [("name", "token")]) (Bs4.descendants soup) el /\
    Bs4.tag_attrs el !! "value" = Some token /\
    requests_of authenticate w =
      [login_page_request (self w); login_request (self w) token].
Proof.
  destruct (authenticate_takes_a_path w)
    as [ | | | | s1 r soup el token s2 out Hget Hok Hparse Hel Hv Hpost]; auto.
  right. by exists s1, r, soup, el, token.
Qed.




Lemma get_table_data_run d t w s out :
  send (session (self w)) (table_request (self w) d t) = (s, out) ->
  get_table_data d t w =
    (match out with
     | inl e => Raise (chained e)
     | inr r =>
         match http_error r with
         | Some e => Raise (chained e)
         | None =>
             match BeautifulSoup (text r) with
             | inl msg => Raise (ParserRejectedMarkup msg)
             | inr soup => table_verdict d t soup
             end
         end
     end, after w s (table_request (self w) d t)).
Proof.
  intros Hget. destruct out as [e|r].
  - unfold get_table_data. apply try_except_chained.
    unfold get_table_data_body, bind, get_self, session_get.
    fold (table_request (self w) d t).
    by rewrite (session_request_Raise _ _ _ _ Hget).
  - destruct (http_error r) as [e|] eqn:Hst.
    + unfold get_table_data. apply try_except_chained.
      unfold get_table_data_body, bind, get_self, session_get.
      fold (table_request (self w) d t).
      rewrite (session_request_Return _ _ _ _ Hget).
      by rewrite (raise_for_status_bad _ _ _ Hst).
    + apply http_error_ok in Hst. unfold get_table_data.
      destruct (BeautifulSoup (text r)) as [msg|soup] eqn:Hparse.
      { apply try_except_other; [|done].
        unfold get_table_data_body, bind, get_self, session_get.
        fold (table_request (self w) d t).
        rewrite (session_request_Return _ _ _ _ Hget).
        rewrite raise_for_status_ok by done.
        unfold parse_html. by rewrite Hparse. }
      apply try_except_other.
      * rewrite (get_table_data_body_page _ _ _ _ _ _ Hget Hst Hparse).
        unfold table_verdict.
        destruct (Bs4.find "table" _ _) as [T|]; [|done].
        unfold bind, _extract_headers, _extract_table_data.
        destruct (Bs4.find "thead" [] T); [|done].
        by destruct (Bs4.find "tbody" [] T).
      * intros e. unfold table_verdict.
        destruct (Bs4.find "table" _ _) as [T|]; [|done].
        destruct (Bs4.find "thead" [] T); [|done].
        by destruct (Bs4.find "tbody" [] T).
Qed.

(** X3.  Whatever happens, [get_table_data d t] attempts exactly one
    request: the GET of [index.php] with [route=/sql], [db=d], [table=t]
    and [pos=0].  It never posts and never sends the credentials. *)
Theorem get_table_data_requests d t w :
  requests_of (get_table_data d t) w = [table_request (self w) d t] /\
  Forall (fun rq => req_method rq = GET /\ req_data rq = [])
         (requests_of (get_table_data d t) w).
Proof.
  assert (H : requests_of (get_table_data d t) w = [table_request (self w) d t]).
  { destruct (send (session (self w)) (table_request (self w) d t)) as [s out] eqn:Hget.
    apply requests_of_after. by rewrite (get_table_data_run _ _ _ _ _ Hget). }
  rewrite H. split; [done|]. by repeat constructor.
Qed.


(** X5.  When the results page arrives, [get_table_data] returns exactly
    when the parser accepts the page, the page has a [table] of class
    [table_results], and the first one has a [thead] and a [tbody] below
    it; the headers are then the [data-column] values (or ["N/A"]) of the
    [column_heading] cells of the first [thead], and there is one row for
    every [tr] below the first [tbody], holding for each of its [data]
    cells the strings of the cell, each stripped of the whitespace of
    [str.isspace], the empty ones dropped, joined. *)
Theorem get_table_data_returns_iff d t w s1 r hdrs rows :
  send (session (self w)) (table_request (self w) d t) = (s1, inr r) ->
  status_ok r ->
  (get_table_data d t w).1 = Return (hdrs, rows) <->
  exists soup T thead tbody ths trs,
    BeautifulSoup (text r) = inr soup /\
    first_of (element "table" [("class", "table_results")]) (Bs4.descendants soup) T /\
    first_of (element "thead" []) (Bs4.descendants T) thead /\
    first_of (element "tbody" []) (Bs4.descendants T) tbody /\
    those (element "th" [("class", "column_heading")]) (Bs4.descendants thead) ths /\
    those (element "tr" []) (Bs4.descendants tbody) trs /\
    hdrs = (fun th => default (PStr "N/A") (Bs4.tag_attrs th !! "data-column")) <$> ths /\
    Forall2 (fun tr row =>
               exists tds,
                 those (element "td" [("class", "data")]) (Bs4.descendants tr) tds /\
                 row = (fun td => concat (filter (fun s => s <> [])
                                            (Str.strip <$> Bs4.all_strings td))) <$> tds)
            trs rows.
Proof.
  intros Hget Hok. rewrite (get_table_data_run _ _ _ _ _ Hget). simpl.
  apply http_error_ok in Hok. rewrite Hok. split.
  - destruct (BeautifulSoup (text r)) as [msg|soup]; [done|]. unfold table_verdict.
    destruct (Bs4.find "table" _ _) as [T|] eqn:ET; [|done].
    destruct (Bs4.find "thead" [] T) as [thead|] eqn:Eh; [|done].
    destruct (Bs4.find "tbody" [] T) as [tbody|] eqn:Eb; [|done].
    intros [= <- <-]. eexists soup, T, thead, tbody, _, _.
    split_and!; try (by apply Bs4Facts.find_Some_first);
      try (by apply Bs4Facts.find_all_those); try done.
    apply Forall2_fmap_r, Forall_Forall2_diag, Forall_forall. intros tr _.
    eexists. split; [by apply Bs4Facts.find_all_those | done].
  - intros (soup & T & thead & tbody & ths & trs & -> & HT & Hh & Hb & Hths & Htrs & -> & Hrows).
    unfold table_verdict.
    rewrite (Bs4Facts.find_first _ _ _ _ HT), (Bs4Facts.find_first _ _ _ _ Hh),
      (Bs4Facts.find_first _ _ _ _ Hb).
    apply Bs4Facts.find_all_those in Hths, Htrs. rewrite Hths, Htrs.
    do 3 f_equal. clear Htrs.
    induction Hrows as [|tr row trs rows (tds & Htds & ->) _ IH]; [done|].
    rewrite fmap_cons. f_equal; [|done].
    apply Bs4Facts.find_all_those in Htds. by rewrite Htds.
Qed.

(** X6.  After a successful [authenticate], [get_table_data] sends its
    request on the session the login POST left behind, and the three
    requests of the two calls are on the wire in that order. *)
Theorem get_table_data_after_login w s1 r1 soup el token s2 r2 d t s3 out :
  send (session (self w)) (login_page_request (self w)) = (s1, inr r1) ->
  status_ok r1 ->
  BeautifulSoup (text r1) = inr soup ->
  first_of (element "input" [("name", "token")]) (Bs4.descendants soup) el ->
  Bs4.tag_attrs el !! "value" = Some token ->
  send s1 (login_request (self w) token) = (s2, inr r2) ->
  status_ok r2 ->
  Str.contains (text r2) login_form_marker = false ->
  send s2 (table_request (self w) d t) = (s3, out) ->
  (authenticate w).1 = Return true /\
  session (self (authenticate w).2) = s2 /\
  session (self (get_table_data d t (authenticate w).2).2) = s3 /\
  wire (get_table_data d t (authenticate w).2).2 =
    wire w ++ [ login_page_request (self w); login_request (self w) token;
                table_request (self w) d t ].
Proof.
  intros Hget Hok1 Hparse Hel Hv Hpost Hok2%http_error_ok Hmark Htable.
  rewrite (authenticate_with_token _ _ _ _ _ _ _ _ Hget Hok1 Hparse Hel Hv Hpost). simpl.
  rewrite Hok2, Hmark. split_and!; [done | done | |].
  - erewrite get_table_data_run; [done|]. exact Htable.
  - erewrite get_table_data_run; [|exact Htable]. simpl.
    by rewrite <- !app_assoc.
Qed.

End Paths.

(** ** The script *)

Section ScriptFacts.

Context `{L : Libs}.
Variable tabulate : list (list ustring) -> list pyval -> string.

Lemma script_authenticate_raises url u p d t e w1 :
  authenticate (start url u p) = (Raise e, w1) ->
  script tabulate url u p d t = settled e w1.
Proof.
  intros H. unfold script, try_finally, try_except_domain, pbind, call_method at 1.
  simpl world. fold (start url u p). rewrite H. unfold settled.
  by destruct (is_domain e).
Qed.

Lemma script_get_table_data_raises url u p d t b w1 e w2 :
  authenticate (start url u p) = (Return b, w1) ->
  get_table_data d t w1 = (Raise e, w2) ->
  script tabulate url u p d t = settled e w2.
Proof.
  intros H1 H2. unfold script, try_finally, try_except_domain, pbind, call_method.
  simpl world. fold (start url u p). rewrite H1. simpl. rewrite H2.
  unfold settled. by destruct (is_domain e).
Qed.

Lemma script_displays url u p d t b w1 hdrs rows w2 :
  authenticate (start url u p) = (Return b, w1) ->
  get_table_data d t w1 = (Return (hdrs, rows), w2) ->
  script tabulate url u p d t =
    (Return tt, {| world := w2; stdout := [tabulate rows hdrs]; closes := 1 |}).
Proof.
  intros H1 H2. unfold script, try_finally, try_except_domain, pbind, call_method.
  simpl world. fold (start url u p). rewrite H1. simpl. by rewrite H2.
Qed.

(** X8.  On every path the script closes the session exactly once, and it
    calls [print] at most once. *)
Theorem script_closes_once url u p d t :
  closes (script tabulate url u p d t).2 = 1%nat /\
  (length (stdout (script tabulate url u p d t).2) <= 1)%nat.
Proof.
  destruct (authenticate (start url u p)) as [[b|e] w1] eqn:E1.
  - destruct (get_table_data d t w1) as [[[hdrs rows]|e] w2] eqn:E2.
    + rewrite (script_displays _ _ _ _ _ _ _ _ _ _ E1 E2). simpl. lia.
    + rewrite (script_get_table_data_raises _ _ _ _ _ _ _ _ _ E1 E2).
      unfold settled. destruct (is_domain e); simpl; lia.
  - rewrite (script_authenticate_raises _ _ _ d t _ _ E1).
    unfold settled. destruct (is_domain e); simpl; lia.
Qed.



(** X11.  When both calls succeed, the script prints exactly the table
    that [tabulate] renders from the rows and headers [get_table_data]
    returned, and ends normally. *)
Theorem script_success url u p d t hdrs rows :
  (authenticate (start url u p)).1 = Return true ->
  (get_table_data d t (authenticate (start url u p)).2).1 = Return (hdrs, rows) ->
  (script tabulate url u p d t).1 = Return tt /\
  stdout (script tabulate url u p d t).2 = [tabulate rows hdrs] /\
  wire (world (script tabulate url u p d t).2) =
    requests_of authenticate (start url u p) ++
    [table_request (self (start url u p)) d t].
Proof.
  intros H1 H2.
  destruct (authenticate (start url u p)) as [o w1] eqn:E1. simpl in H1, H2. subst o.
  destruct (get_table_data d t w1) as [o w2] eqn:E2. simpl in H2. subst o.
  rewrite (script_displays _ _ _ _ _ _ _ _ _ _ E1 E2). simpl.
  split_and!; [done | done |].
  assert (Hw1 : wire w1 = requests_of authenticate (start url u p)).
  { unfold requests_of. rewrite E1. simpl. by rewrite drop_0. }
  destruct (send (session (self w1)) (table_request (self w1) d t)) as [s out] eqn:Hget.
  rewrite (get_table_data_run _ _ _ _ _ Hget) in E2. injection E2 as _ <-. simpl.
  rewrite Hw1. do 2 f_equal.
  pose proof (frames_authenticate (start url u p)) as Hf. rewrite E1 in Hf.
  unfold credentials in Hf. simpl in Hf. injection Hf as Hb _ _.
  unfold table_request. by rewrite Hb.
Qed.

(** X12.  When the login succeeds and [get_table_data] lets an
    [AttributeError] through, the script does not catch it: it prints
    nothing, the exception leaves the script, and the session is closed
    all the same. *)
Theorem script_fault_escapes url u p d t msg :
  (authenticate (start url u p)).1 = Return true ->
  (get_table_data d t (authenticate (start url u p)).2).1 = Raise (AttributeError msg) ->
  (script tabulate url u p d t).1 = Raise (AttributeError msg) /\
  stdout (script tabulate url u p d t).2 = [] /\
  closes (script tabulate url u p d t).2 = 1%nat.
Proof.
  intros H1 H2.
  destruct (authenticate (start url u p)) as [o w1] eqn:E1. simpl in H1, H2. subst o.
  destruct (get_table_data d t w1) as [o w2] eqn:E2. simpl in H2. subst o.
  by rewrite (script_get_table_data_raises _ _ _ _ _ _ _ _ _ E1 E2).
Qed.

End ScriptFacts.

(** ** The fixtures, run through both calls and the script *)

Module MoreRuns.
Import Fixtures ScriptFixtures.

Ltac status_here := left; vm_compute; reflexivity.
Ltac first_here := apply Bs4Facts.find_Some_first; vm_compute; reflexivity.

(** The results fixture: it returns, and so it parses and has a table, a
    head and a body. *)
Lemma get_table_data_returns_iff_witness :
  (get_table_data "testDB" "users" (fresh with_results)).1 =
    Return ([PStr "id"; PStr "name"], [[txt "1"; txt "alice"]; [txt "2"; txt "bob"]]) <->
  exists soup T thead tbody ths trs,
    @BeautifulSoup with_results results_markup = inr soup /\
    first_of (element "table" [("class", "table_results")]) (Bs4.descendants soup) T /\
    first_of (element "thead" []) (Bs4.descendants T) thead /\
    first_of (element "tbody" []) (Bs4.descendants T) tbody /\
    those (element "th" [("class", "column_heading")]) (Bs4.descendants thead) ths /\
    those (element "tr" []) (Bs4.descendants tbody) trs /\
    [PStr "id"; PStr "name"] =
      (fun th => default (PStr "N/A") (Bs4.tag_attrs th !! "data-column")) <$> ths /\
    Forall2 (fun tr row =>
               exists tds,
                 those (element "td" [("class", "data")]) (Bs4.descendants tr) tds /\
                 row = (fun td => concat (filter (fun s => s <> [])
                                            (Str.strip <$> Bs4.all_strings td))) <$> tds)
            trs [[txt "1"; txt "alice"]; [txt "2"; txt "bob"]].
Proof.
  apply (get_table_data_returns_iff (L := with_results) "testDB" "users"
           (fresh with_results) 1%nat
           (respond 200 "OK" (table_request (self (fresh with_results)) "testDB" "users")
                    results_markup)).
  - reflexivity.
  - status_here.
Defined.

(** The cells of the results fixture come back without their padding. *)
Lemma get_table_data_cells_clean_witness :
  Forall (Forall Str.clean) [[txt "1"; txt "alice"]; [txt "2"; txt "bob"]].
Proof.
  apply (get_table_data_cells_clean (L := with_results) "testDB" "users"
           (fresh with_results) [PStr "id"; PStr "name"]).
  vm_compute. reflexivity.
Defined.

(** Login, then the table, on one site. *)
Lemma get_table_data_after_login_witness :
  (authenticate (fresh open_site)).1 = Return true /\
  session (self (authenticate (fresh open_site)).2) = 2%nat /\
  session (self (get_table_data "testDB" "users" (authenticate (fresh open_site)).2).2) = 3%nat /\
  wire (get_table_data "testDB" "users" (authenticate (fresh open_site)).2).2 =
    wire (fresh open_site) ++
    [ login_page_request (self (fresh open_site));
      login_request (self (fresh open_site)) (PStr "abc123");
      table_request (self (fresh open_site)) "testDB" "users" ].
Proof.
  eapply (get_table_data_after_login (L := open_site) (fresh open_site)).
  - reflexivity.
  - status_here.
  - vm_compute. reflexivity.
  - first_here.
  - vm_compute. reflexivity.
  - reflexivity.
  - status_here.
  - vm_compute. reflexivity.
  - reflexivity.
Defined.



(** The site lets the client in and shows the table. *)
Lemma script_success_witness :
  (script (L := open_site) render "http://localhost/phpmyadmin" "test" "secret"
          "testDB" "users").1 = Return tt /\
  stdout (script (L := open_site) render "http://localhost/phpmyadmin" "test" "secret"
                 "testDB" "users").2 =
    [render [[txt "1"; txt "alice"]; [txt "2"; txt "bob"]] [PStr "id"; PStr "name"]] /\
  wire (world (script (L := open_site) render "http://localhost/phpmyadmin" "test"
                      "secret" "testDB" "users").2) =
    requests_of authenticate (start (L := open_site) "http://localhost/phpmyadmin"
                                    "test" "secret") ++
    [table_request (self (start (L := open_site) "http://localhost/phpmyadmin"
                                "test" "secret")) "testDB" "users"].
Proof.
  apply (script_success (L := open_site) render "http://localhost/phpmyadmin"
           "test" "secret" "testDB" "users").
  - vm_compute. reflexivity.
  - vm_compute. reflexivity.
Defined.

(** The results page has no [thead]: the fault leaves the script. *)
Lemma script_fault_escapes_witness :
  (script (L := broken_site) render "http://localhost/phpmyadmin" "test" "secret"
          "testDB" "users").1 =
    Raise (AttributeError "'NoneType' object has no attribute 'find_all'") /\
  stdout (script (L := broken_site) render "http://localhost/phpmyadmin" "test" "secret"
                 "testDB" "users").2 = [] /\
  closes (script (L := broken_site) render "http://localhost/phpmyadmin" "test" "secret"
                 "testDB" "users").2 = 1%nat.
Proof.
  apply (script_fault_escapes (L := broken_site) render "http://localhost/phpmyadmin"
           "test" "secret" "testDB" "users").
  - vm_compute. reflexivity.
  - vm_compute. reflexivity.
Defined.

End MoreRuns.
